(** * n8n-mcp-tool: the workflow manager and its two servers

    A shallow embedding of the two JavaScript entry points of the
    repository:

    - [index.js], the server built on the Model Context Protocol SDK
      (module [Sdk] below);
    - the plain stdio server whose file name is not recorded
      (module [Stdio] below).

    Both wrap the same five docker / n8n command sequences.  Child
    processes, the clock and timers are the only effects; they are modelled
    by an explicit world that is threaded through every operation, together
    with the chronological log of what the program did. *)

From Stdlib Require Import String Ascii List Bool Arith ZArith NArith Lia.
From Stdlib Require Import DecimalString.
From Stdlib Require DecimalZ.
Import ListNotations.

Set Warnings "-register-all".

Local Open Scope list_scope.
Local Open Scope string_scope.

(** ** JavaScript strings

    A string is a sequence of code units; the development covers code units
    below 256, which is what [ascii] holds. *)

Module JsString.

(** The characters matched by [\s] and stripped by [String.prototype.trim]
    among the code units below 256: TAB, LF, VT, FF, CR, SPACE, NBSP. *)
Definition is_ws (c : ascii) : bool :=
  let n := N_of_ascii c in
  ((9 <=? n) && (n <=? 13) || (n =? 32) || (n =? 160))%N.

Fixpoint trimStart (s : string) : string :=
  match s with
  | String c r => if is_ws c then trimStart r else s
  | EmptyString => EmptyString
  end.

(** [trimEnd] keeps a character when it is not white space or when
    something other than white space follows it. *)
Fixpoint trimEnd (s : string) : string :=
  match s with
  | EmptyString => EmptyString
  | String c r =>
      match trimEnd r with
      | EmptyString => if is_ws c then EmptyString else String c EmptyString
      | r' => String c r'
      end
  end.

Definition trim (s : string) : string := trimEnd (trimStart s).

(** [s.split(sep)] for a one-character separator string: the pieces
    between the occurrences of [sep]; never the empty list. *)
Fixpoint split_on (sep : ascii) (s : string) : list string :=
  match s with
  | EmptyString => [EmptyString]
  | String c r =>
      if Ascii.eqb c sep then EmptyString :: split_on sep r
      else match split_on sep r with
           | piece :: rest => String c piece :: rest
           | [] => [String c EmptyString]
           end
  end.

(** [s.split(/\s{2,}/)].  The scan runs left to right.  [Field]: reading a
    piece.  [Pending p]: one white-space character [p] has been read and
    belongs to the piece unless another one follows.  [Gap]: inside a
    separator, a maximal run of two or more white-space characters. *)
Inductive scan := Field | Pending (p : ascii) | Gap.

Fixpoint split_gaps_from (st : scan) (cur : string) (s : string) : list string :=
  match s with
  | EmptyString =>
      match st with
      | Field => [cur]
      | Pending p => [cur ++ String p EmptyString]
      | Gap => [EmptyString]
      end
  | String c r =>
      match st with
      | Field =>
          if is_ws c then split_gaps_from (Pending c) cur r
          else split_gaps_from Field (cur ++ String c EmptyString) r
      | Pending p =>
          if is_ws c then cur :: split_gaps_from Gap EmptyString r
          else split_gaps_from Field (cur ++ String p (String c EmptyString)) r
      | Gap =>
          if is_ws c then split_gaps_from Gap EmptyString r
          else split_gaps_from Field (String c EmptyString) r
      end
  end.

Definition split_gaps (s : string) : list string :=
  split_gaps_from Field EmptyString s.

(** [hay.includes(needle)] *)
Fixpoint includes (needle hay : string) : bool :=
  prefix needle hay ||
  match hay with
  | EmptyString => false
  | String _ r => includes needle r
  end.

Definition LF : ascii := ascii_of_nat 10.

(** [a.join(sep)] on an array of strings. *)
Fixpoint join (sep : string) (l : list string) : string :=
  match l with
  | [] => EmptyString
  | [x] => x
  | x :: r => x ++ sep ++ join sep r
  end.

End JsString.

(** ** JavaScript values

    The values a parsed JSON request can carry, plus [undefined].  A number
    is carried as the text [Number.prototype.toString] gives for it: the
    program never computes with a number, it only prints it.  An object is
    the list of its own properties in enumeration order. *)

Inductive JsVal : Type :=
| JUndefined
| JNull
| JBool (b : bool)
| JNum (text : string)
| JStr (s : string)
| JArr (items : list JsVal)
| JObj (props : list (string * JsVal)).

Module Js.

Fixpoint lookup (key : string) (props : list (string * JsVal)) : JsVal :=
  match props with
  | [] => JUndefined
  | (k, v) :: r => if String.eqb k key then v else lookup key r
  end.

Fixpoint has_key (key : string) (props : list (string * JsVal)) : bool :=
  match props with
  | [] => false
  | (k, _) :: r => (String.eqb k key || has_key key r)%bool
  end.

(** What a template literal inserts for a value: [ToString].  An array
    joins its elements with commas, [undefined] and [null] counting as
    empty.  An object answers [[object Object]], unless it has a member
    named [toString] of its own: that member hides the inherited method,
    it is not a function (the value was parsed from JSON), and the
    conversion is a TypeError, here [None]. *)
Fixpoint toString (v : JsVal) : option string :=
  match v with
  | JUndefined => Some "undefined"
  | JNull => Some "null"
  | JBool true => Some "true"
  | JBool false => Some "false"
  | JNum t => Some t
  | JStr s => Some s
  | JArr items =>
      (fix joined (l : list JsVal) : option string :=
         match l with
         | [] => Some EmptyString
         | x :: r =>
             let first := match x with
                          | JUndefined | JNull => Some EmptyString
                          | _ => toString x
                          end in
             match first, r with
             | None, _ => None
             | Some a, [] => Some a
             | Some a, _ :: _ =>
                 match joined r with
                 | Some b => Some (a ++ "," ++ b)
                 | None => None
                 end
             end
         end) items
  | JObj props =>
      if has_key "toString" props then None else Some "[object Object]"
  end.

(** The word an error message uses for the two values without members. *)
Definition nullish_name (v : JsVal) : string :=
  match v with
  | JNull => "null"
  | _ => "undefined"
  end.

(** [o.key] for the property names the servers read ([method], [params],
    [id], [file], [workflow], [workflowId], [updateData]): none of them
    exists on a primitive wrapper or on an array, so only an object can
    answer something else than [undefined].  Reading a property of
    [undefined] or [null] is a TypeError, here [None]. *)
Definition get (v : JsVal) (key : string) : option JsVal :=
  match v with
  | JUndefined | JNull => None
  | JObj props => Some (lookup key props)
  | _ => Some JUndefined
  end.

End Js.

(** ** JSON.stringify

    [JSON.stringify(v, null, gap)] after the serialisation algorithm of the
    language standard; [gap] is the empty string for the one-argument call
    and two spaces for the call with indent 2.  [None] is the [undefined]
    the function answers for [undefined]. *)

Module Json.

Definition hex_digit (n : N) : ascii :=
  if (n <? 10)%N then ascii_of_N (48 + n) else ascii_of_N (87 + n).

Definition quote_char (c : ascii) : string :=
  let n := N_of_ascii c in
  if (n =? 8)%N then "\b"
  else if (n =? 9)%N then "\t"
  else if (n =? 10)%N then "\n"
  else if (n =? 12)%N then "\f"
  else if (n =? 13)%N then "\r"
  else if (n =? 34)%N then String "\" (String c EmptyString)
  else if (n =? 92)%N then "\\"
  else if (n <? 32)%N then
    "\u00" ++ String (hex_digit (n / 16)) (String (hex_digit (n mod 16)) EmptyString)
  else String c EmptyString.

Fixpoint quote_body (s : string) : string :=
  match s with
  | EmptyString => EmptyString
  | String c r => quote_char c ++ quote_body r
  end.

Definition dquote : string := String (ascii_of_nat 34) EmptyString.

Definition quote (s : string) : string := dquote ++ quote_body s ++ dquote.

Definition newline : string := String JsString.LF EmptyString.

(** The brackets around the serialised members [partial]. *)
Definition wrap (opening closing gap stepback indent : string)
                (partial : list string) : string :=
  match partial with
  | [] => opening ++ closing
  | _ =>
      if String.eqb gap EmptyString
      then opening ++ JsString.join "," partial ++ closing
      else opening ++ newline ++ indent
             ++ JsString.join ("," ++ newline ++ indent) partial
             ++ newline ++ stepback ++ closing
  end.

Fixpoint serialize (gap stepback : string) (v : JsVal) {struct v} : option string :=
  let indent := stepback ++ gap in
  match v with
  | JUndefined => None
  | JNull => Some "null"
  | JBool true => Some "true"
  | JBool false => Some "false"
  | JNum t => Some t
  | JStr s => Some (quote s)
  | JArr items =>
      let partial :=
        map (fun x => match serialize gap indent x with
                      | Some t => t
                      | None => "null"
                      end) items in
      Some (wrap "[" "]" gap stepback indent partial)
  | JObj props =>
      let colon := if String.eqb gap EmptyString then ":" else ": " in
      let partial :=
        (fix members (ps : list (string * JsVal)) : list string :=
           match ps with
           | [] => []
           | (k, x) :: r =>
               match serialize gap indent x with
               | Some t => (quote k ++ colon ++ t) :: members r
               | None => members r
               end
           end) props in
      Some (wrap "{" "}" gap stepback indent partial)
  end.

(** [JSON.stringify(v)] *)
Definition stringify (v : JsVal) : option string :=
  serialize EmptyString EmptyString v.

(** [JSON.stringify(v, null, 2)] *)
Definition stringify2 (v : JsVal) : option string :=
  serialize "  " EmptyString v.

(** A template literal or [text:] field receiving the answer of
    [JSON.stringify]. *)
Definition text_of (o : option string) : string :=
  match o with
  | Some t => t
  | None => "undefined"
  end.

End Json.

(** ** Numbers printed in decimal: [Date.now()] inside a template literal *)

Definition Z_to_string (z : Z) : string :=
  DecimalString.NilEmpty.string_of_int (Z.to_int z).

(** ** The world outside the process

    [exec] hands a command line to a shell.  What the child process answers
    and how long it runs is the host's business: both may depend on
    everything the program has done so far. *)

Inductive ExecReply : Type :=
| Exited (stdout stderr : string)      (* exit status 0 *)
| Failed (message : string).           (* the [message] of exec's error *)

Inductive Event : Type :=
| Exec (command : string) (reply : ExecReply)
| Sleep (ms : Z)
| Stdout (line : string)
| Stderr (line : string)
| StderrError (label message : string).

Record Host : Type := {
  respond : list Event -> string -> ExecReply;
  elapsed : list Event -> string -> N
}.

Record World : Type := {
  host : Host;
  now : Z;                (* milliseconds since the epoch *)
  log : list Event        (* oldest first *)
}.

Record JsError : Type := { message : string }.

Inductive Completion (A : Type) : Type :=
| Normal (a : A)
| Throw (e : JsError).
Arguments Normal {A} a.
Arguments Throw {A} e.

(** An async function: it runs to a value or to an exception and leaves the
    world changed. *)
Definition Prog (A : Type) : Type := World -> Completion A * World.

Definition ret {A} (a : A) : Prog A := fun w => (Normal a, w).

Definition throw {A} (msg : string) : Prog A :=
  fun w => (Throw {| message := msg |}, w).

Definition bind {A B} (m : Prog A) (k : A -> Prog B) : Prog B :=
  fun w =>
    match m w with
    | (Normal a, w') => k a w'
    | (Throw e, w') => (Throw e, w')
    end.

Definition try_catch {A} (body : Prog A) (handler : JsError -> Prog A) : Prog A :=
  fun w =>
    match body w with
    | (Normal a, w') => (Normal a, w')
    | (Throw e, w') => handler e w'
    end.

Declare Scope prog_scope.
Delimit Scope prog_scope with prog.
Notation "x <- m ;; k" := (bind m (fun x => k))
  (at level 61, m at next level, right associativity) : prog_scope.
Notation "m ;; k" := (bind m (fun _ => k))
  (at level 61, right associativity) : prog_scope.
Local Open Scope prog_scope.

(** [a.push(x)] *)
Definition push {A} (a : list A) (x : A) : list A := (a ++ [x])%list.

Definition emit (e : Event) (w : World) : World :=
  {| host := host w; now := now w; log := push (log w) e |}.

Definition advance (d : Z) (w : World) : World :=
  {| host := host w; now := now w + d; log := log w |}.

(** The callback form of [child_process.exec], and [promisify(exec)]: both
    settle with the standard output and standard error, or with the error. *)
Definition exec (command : string) : Prog (string * string) :=
  fun w =>
    let r := respond (host w) (log w) command in
    let w' := emit (Exec command r)
                (advance (Z.of_N (elapsed (host w) (log w) command)) w) in
    match r with
    | Exited out err => (Normal (out, err), w')
    | Failed msg => (Throw {| message := msg |}, w')
    end.

(** [await new Promise(resolve => setTimeout(resolve, ms))] *)
Definition sleep (ms : Z) : Prog unit :=
  fun w => (Normal tt, emit (Sleep ms) (advance ms w)).

(** [Date.now()], and the time value of [new Date()] *)
Definition date_now : Prog Z := fun w => (Normal (now w), w).

Definition console_log (line : string) : Prog unit :=
  fun w => (Normal tt, emit (Stdout line) w).

Definition console_error (line : string) : Prog unit :=
  fun w => (Normal tt, emit (Stderr line) w).

(** [console.error(label, error)] with an Error object: the label and the
    inspected error, of which the log keeps the message. *)
Definition console_error_obj (label : string) (e : JsError) : Prog unit :=
  fun w => (Normal tt, emit (StderrError label (message e)) w).

(** [${v}] in a template literal. *)
Definition template (v : JsVal) : Prog string :=
  match Js.toString v with
  | Some s => ret s
  | None => throw "Cannot convert object to primitive value"
  end.

(** [process.env.N8N_CONTAINER_NAME || 'n8n-container']: an unset or empty
    variable selects the default. *)
Definition containerNameOf (env : option string) : string :=
  match env with
  | Some (String c r) => String c r
  | _ => "n8n-container"
  end.

Record N8nWorkflowManager : Type := { containerName : string }.

Definition newManager (env : option string) : N8nWorkflowManager :=
  {| containerName := containerNameOf env |}.

(** ** Dates: [new Date().toISOString()]

    The time value is the number of milliseconds since 1970-01-01T00:00Z.
    The calendar date of a day number is computed in the proleptic Gregorian
    calendar, as the language standard prescribes, with 400-year eras that
    start on a 1st of March. *)

Module JsDate.

Local Open Scope Z_scope.

Definition msPerDay : Z := 86400000.

(** The largest time value a Date object holds. *)
Definition maxTime : Z := 8640000000000000.

Definition valid_time (t : Z) : Prop := - maxTime <= t <= maxTime.

Record Civil : Type := { year : Z; month : Z; day : Z }.

Definition dayOfEra (z : Z) : Z := (z + 719468) mod 146097.
Definition era (z : Z) : Z := (z + 719468) / 146097.

Definition yearOfEra (doe : Z) : Z :=
  (doe - doe / 1460 + doe / 36524 - doe / 146096) / 365.

(** Day of the year that starts on the 1st of March. *)
Definition dayOfYear (doe : Z) : Z :=
  let yoe := yearOfEra doe in
  doe - (365 * yoe + yoe / 4 - yoe / 100).

(** Month counted from March = 0. *)
Definition monthFromMarch (doy : Z) : Z := (5 * doy + 2) / 153.

Definition civil_of_days (z : Z) : Civil :=
  let doe := dayOfEra z in
  let yoe := yearOfEra doe in
  let doy := dayOfYear doe in
  let mp := monthFromMarch doy in
  let m := if mp <? 10 then mp + 3 else mp - 9 in
  {| year := yoe + era z * 400 + (if m <=? 2 then 1 else 0);
     month := m;
     day := doy - (153 * mp + 2) / 5 + 1 |}.

Definition digit (n : Z) : ascii := ascii_of_N (48 + Z.to_N (n mod 10)).

(** The last [width] decimal digits of [n], zero padded. *)
Fixpoint pad (width : nat) (n : Z) : string :=
  match width with
  | O => EmptyString
  | S w => pad w (n / 10) ++ String (digit n) EmptyString
  end.

(** Four digits for the years 0 to 9999, otherwise a sign and six. *)
Definition year_text (y : Z) : string :=
  if (0 <=? y) && (y <=? 9999) then pad 4 y
  else (if y <? 0 then "-" else "+") ++ pad 6 (Z.abs y).

Definition toISOString (t : Z) : string :=
  let c := civil_of_days (t / msPerDay) in
  let tid := t mod msPerDay in
  year_text (year c) ++ "-" ++ pad 2 (month c) ++ "-" ++ pad 2 (day c)
    ++ "T" ++ pad 2 (tid / 3600000)
    ++ ":" ++ pad 2 (tid / 60000 mod 60)
    ++ ":" ++ pad 2 (tid / 1000 mod 60)
    ++ "." ++ pad 3 (tid mod 1000) ++ "Z".

End JsDate.

(** [s.replace(/[:.]/g, '-')] *)
Definition dash (c : ascii) : ascii :=
  if (Ascii.eqb c ":" || Ascii.eqb c ".")%bool then "-"%char else c.

Fixpoint replace_colon_dot (s : string) : string :=
  match s with
  | EmptyString => EmptyString
  | String c r => String (dash c) (replace_colon_dot r)
  end.

(** The name both servers give a backup taken at time [t]:
    [`n8n-backup-${timestamp}.json`]. *)
Definition backupFileAt (t : Z) : string :=
  let timestamp := replace_colon_dot (JsDate.toISOString t) in
  "n8n-backup-" ++ timestamp ++ ".json".

(** ** [index.js]: the server on the protocol SDK *)

Module Sdk.

(** [executeCommand]: the standard output of the command; a standard
    error without the word WARNING goes to the console; a failure is
    rethrown with a prefix. *)
Definition executeCommand (command : string) : Prog string :=
  try_catch
    (p <- exec command ;;
     let (stdout, stderr) := p in
     (if (negb (String.eqb stderr EmptyString)
          && negb (JsString.includes "WARNING" stderr))%bool
      then console_error ("Command stderr: " ++ stderr)
      else ret tt) ;;
     ret stdout)
    (fun error => throw ("Command failed: " ++ message error)).

(** A workflow summary [{ id, name, active }]; [None] is [undefined]. *)
Record Summary : Type := {
  id : option string;
  name : option string;
  active : bool
}.

(** [active === 'Active'] *)
Definition is_Active (column : option string) : bool :=
  match column with
  | Some s => String.eqb s "Active"
  | None => false
  end.

(** The arrow function of [listWorkflows]:
    [const [id, name, active] = line.trim().split(/\s{2,}/)]. *)
Definition parseLine (line : string) : Summary :=
  let columns := JsString.split_gaps (JsString.trim line) in
  {| id := nth_error columns 0;
     name := nth_error columns 1;
     active := is_Active (nth_error columns 2) |}.

Definition parseListing (result : string) : list Summary :=
  map parseLine (JsString.split_on JsString.LF (JsString.trim result)).

Definition listCommand (m : N8nWorkflowManager) : string :=
  "docker exec " ++ containerName m ++ " n8n list:workflow --no-header".

Definition listWorkflows (m : N8nWorkflowManager) : Prog (list Summary) :=
  try_catch
    (result <- executeCommand (listCommand m) ;;
     ret (parseListing result))
    (fun error => throw ("Failed to list workflows: " ++ message error)).

(** [{ success, message }] and [{ success, file }] *)
Inductive Outcome : Type :=
| WithMessage (success : bool) (message : string)
| WithFile (success : bool) (file : string).

Definition tmpFileAt (t : Z) : string :=
  "/tmp/workflow-update-" ++ Z_to_string t ++ ".json".

Definition echoCommand (updateData : JsVal) (tmpFile : string) : string :=
  "echo '" ++ Json.text_of (Json.stringify updateData) ++ "' > " ++ tmpFile.

Definition copyCommand (m : N8nWorkflowManager) (tmpFile : string) : string :=
  "docker cp " ++ tmpFile ++ " " ++ containerName m ++ ":/tmp/update.json".

Definition importCommand (m : N8nWorkflowManager) : string :=
  "docker exec " ++ containerName m
    ++ " n8n import:workflow --input=/tmp/update.json".

Definition rmCommand (tmpFile : string) : string := "rm " ++ tmpFile.

(** [workflowId] is not used by the body. *)
Definition updateWorkflow (m : N8nWorkflowManager)
           (workflowId updateData : JsVal) : Prog Outcome :=
  try_catch
    (t <- date_now ;;
     let tmpFile := tmpFileAt t in
     exec (echoCommand updateData tmpFile) ;;
     executeCommand (copyCommand m tmpFile) ;;
     executeCommand (importCommand m) ;;
     exec (rmCommand tmpFile) ;;
     ret (WithMessage true "Workflow updated successfully"))
    (fun error => throw ("Failed to update workflow: " ++ message error)).

Definition restartCommand (m : N8nWorkflowManager) : string :=
  "docker restart " ++ containerName m.

Definition restartDelay : Z := 10000.

Definition restartContainer (m : N8nWorkflowManager) : Prog Outcome :=
  try_catch
    (executeCommand (restartCommand m) ;;
     sleep restartDelay ;;
     ret (WithMessage true "Container restarted successfully"))
    (fun error => throw ("Failed to restart container: " ++ message error)).

Definition exportAllCommand (m : N8nWorkflowManager) (backupFile : string) : string :=
  "docker exec " ++ containerName m
    ++ " n8n export:workflow --all --output=/tmp/" ++ backupFile.

Definition copyOutCommand (m : N8nWorkflowManager) (backupFile : string) : string :=
  "docker cp " ++ containerName m ++ ":/tmp/" ++ backupFile ++ " ./" ++ backupFile.

Definition backupWorkflows (m : N8nWorkflowManager) : Prog Outcome :=
  try_catch
    (t <- date_now ;;
     let backupFile := backupFileAt t in
     executeCommand (exportAllCommand m backupFile) ;;
     executeCommand (copyOutCommand m backupFile) ;;
     ret (WithFile true backupFile))
    (fun error => throw ("Failed to create backup: " ++ message error)).

(** One entry [{ check, result }] of the diagnosis. *)
Record Check : Type := { check : string; result : string }.

Definition statusCommand (m : N8nWorkflowManager) : string :=
  "docker ps --filter name=" ++ containerName m ++ " --format "
  ++ Json.dquote ++ "{{.Status}}" ++ Json.dquote.

Definition searchCommand (m : N8nWorkflowManager) (workflowId : string) : string :=
  "docker exec " ++ containerName m ++ " n8n list:workflow | grep " ++ workflowId.

Definition logsCommand (m : N8nWorkflowManager) : string :=
  "docker logs --tail 20 " ++ containerName m.

Definition troubleshoot (m : N8nWorkflowManager) (workflowId : JsVal)
  : Prog (list Check) :=
  try_catch
    (containerStatus <- executeCommand (statusCommand m) ;;
     let checks1 :=
       [{| check := "Container Status"; result := JsString.trim containerStatus |}] in
     checks2 <-
       try_catch
         (id <- template workflowId ;;
          workflowStatus <- executeCommand (searchCommand m id) ;;
          ret (push checks1 {| check := "Workflow Status";
                               result := JsString.trim workflowStatus |}))
         (fun _ =>
          ret (push checks1 {| check := "Workflow Status";
                               result := "Workflow not found" |})) ;;
     logs <- executeCommand (logsCommand m) ;;
     ret (push checks2 {| check := "Recent Logs"; result := logs |}))
    (fun error => throw ("Failed to troubleshoot: " ++ message error)).

(** *** The tool-call handler *)

Definition summary_js (s : Summary) : JsVal :=
  let opt o := match o with Some x => JStr x | None => JUndefined end in
  JObj [("id", opt (id s)); ("name", opt (name s)); ("active", JBool (active s))].

Definition outcome_js (o : Outcome) : JsVal :=
  match o with
  | WithMessage success message =>
      JObj [("success", JBool success); ("message", JStr message)]
  | WithFile success file =>
      JObj [("success", JBool success); ("file", JStr file)]
  end.

Definition check_js (c : Check) : JsVal :=
  JObj [("check", JStr (check c)); ("result", JStr (result c))].

(** [{ content: [{ type: 'text', text }], isError }]; [isError] is absent
    from a normal answer. *)
Record ToolResponse : Type := { text : string; isError : option bool }.

(** [return { content: [{ type: 'text', text: JSON.stringify(v, null, 2) }] }] *)
Definition answer (v : JsVal) : Prog ToolResponse :=
  ret {| text := Json.text_of (Json.stringify2 v); isError := None |}.

(** [request.params]: the SDK has checked it against the call-tool schema,
    so [name] is a string and [arguments] an object or absent. *)
Record CallToolRequest : Type := { tool : string; arguments : JsVal }.

(** [args.key]; a TypeError when [args] is [undefined]. *)
Definition member (v : JsVal) (key : string) : Prog JsVal :=
  match Js.get v key with
  | Some x => ret x
  | None =>
      throw ("Cannot read properties of " ++ Js.nullish_name v
               ++ " (reading '" ++ key ++ "')")
  end.

Inductive Tool : Type :=
| ListWorkflows | UpdateWorkflow | RestartContainer | BackupWorkflows | Troubleshoot.


(** The case labels of the [switch (name)], tried in order. *)
Definition route (name : string) : option Tool :=
  if String.eqb name "list_workflows" then Some ListWorkflows
  else if String.eqb name "update_workflow" then Some UpdateWorkflow
  else if String.eqb name "restart_container" then Some RestartContainer
  else if String.eqb name "backup_workflows" then Some BackupWorkflows
  else if String.eqb name "troubleshoot" then Some Troubleshoot
  else None.

(** The body of each case. *)
Definition invoke (m : N8nWorkflowManager) (t : Tool) (args : JsVal)
  : Prog ToolResponse :=
  match t with
  | ListWorkflows =>
      workflows <- listWorkflows m ;;
      answer (JArr (map summary_js workflows))
  | UpdateWorkflow =>
      workflowId <- member args "workflowId" ;;
      updateData <- member args "updateData" ;;
      updateResult <- updateWorkflow m workflowId updateData ;;
      answer (outcome_js updateResult)
  | RestartContainer =>
      restartResult <- restartContainer m ;;
      answer (outcome_js restartResult)
  | BackupWorkflows =>
      backupResult <- backupWorkflows m ;;
      answer (outcome_js backupResult)
  | Troubleshoot =>
      workflowId <- member args "workflowId" ;;
      troubleshootResult <- troubleshoot m workflowId ;;
      answer (JArr (map check_js troubleshootResult))
  end.

(** The [catch] clause of the handler. *)
Definition reportError (error : JsError) : Prog ToolResponse :=
  console_error_obj "Tool execution error:" error ;;
  ret {| text := "Error: " ++ message error; isError := Some true |}.

Definition callTool (m : N8nWorkflowManager) (request : CallToolRequest)
  : Prog ToolResponse :=
  try_catch
    (match route (tool request) with
     | Some t => invoke m t (arguments request)
     | None => throw ("Unknown tool: " ++ tool request)
     end)
    reportError.

(** The requests of a session, answered one after the other. *)
Fixpoint serve (m : N8nWorkflowManager) (requests : list CallToolRequest)
  : Prog (list ToolResponse) :=
  match requests with
  | [] => ret []
  | r :: rest =>
      a <- callTool m r ;;
      more <- serve m rest ;;
      ret (a :: more)
  end.

End Sdk.

(** ** The plain stdio server *)

Module Stdio.

(** [executeCommand]: the promise around [exec]; the error is passed on
    as it is. *)
Definition executeCommand (command : string) : Prog string :=
  p <- exec command ;;
  ret (fst p).

Definition listCommand (m : N8nWorkflowManager) : string :=
  "docker exec " ++ containerName m ++ " n8n list:workflow".

Definition listWorkflows (m : N8nWorkflowManager) : Prog string :=
  try_catch
    (result <- executeCommand (listCommand m) ;;
     ret result)
    (fun error => ret ("Error listing workflows: " ++ message error)).

Definition exportCommand (m : N8nWorkflowManager) (workflowId : string) : string :=
  "docker exec " ++ containerName m ++ " n8n export:workflow --id="
    ++ workflowId ++ " --output=/tmp/backup-" ++ workflowId ++ ".json".

Definition copyCommand (m : N8nWorkflowManager) (updateFile : string) : string :=
  "docker cp " ++ updateFile ++ " " ++ containerName m ++ ":/tmp/update.json".

Definition importCommand (m : N8nWorkflowManager) : string :=
  "docker exec " ++ containerName m
    ++ " n8n import:workflow --input=/tmp/update.json".

Definition activateCommand (m : N8nWorkflowManager) (workflowId : string) : string :=
  "docker exec " ++ containerName m ++ " n8n update:workflow --id="
    ++ workflowId ++ " --active=true".

Definition restartCommand (m : N8nWorkflowManager) : string :=
  "docker restart " ++ containerName m.

Definition updateWorkflow (m : N8nWorkflowManager)
           (workflowId updateFile : JsVal) : Prog string :=
  try_catch
    (id <- template workflowId ;;
     executeCommand (exportCommand m id) ;;
     file <- template updateFile ;;
     executeCommand (copyCommand m file) ;;
     executeCommand (importCommand m) ;;
     id' <- template workflowId ;;
     executeCommand (activateCommand m id') ;;
     executeCommand (restartCommand m) ;;
     ret "Workflow updated successfully")
    (fun error => ret ("Error updating workflow: " ++ message error)).

Definition restartDelay : Z := 20000.

Definition restartContainer (m : N8nWorkflowManager) : Prog string :=
  try_catch
    (executeCommand (restartCommand m) ;;
     sleep restartDelay ;;
     ret "Container restarted successfully")
    (fun error => ret ("Error restarting container: " ++ message error)).

Definition exportAllCommand (m : N8nWorkflowManager) (backupFile : string) : string :=
  "docker exec " ++ containerName m
    ++ " n8n export:workflow --all --output=/tmp/" ++ backupFile.

Definition copyOutCommand (m : N8nWorkflowManager) (backupFile : string) : string :=
  "docker cp " ++ containerName m ++ ":/tmp/" ++ backupFile ++ " ./" ++ backupFile.

Definition backupWorkflows (m : N8nWorkflowManager) : Prog string :=
  try_catch
    (t <- date_now ;;
     let backupFile := backupFileAt t in
     executeCommand (exportAllCommand m backupFile) ;;
     executeCommand (copyOutCommand m backupFile) ;;
     ret ("Backup created: " ++ backupFile))
    (fun error => ret ("Error creating backup: " ++ message error)).

Definition statusCommand (m : N8nWorkflowManager) : string :=
  "docker ps --filter name=" ++ containerName m ++ " --format "
  ++ Json.dquote ++ "{{.Status}}" ++ Json.dquote.

Definition searchCommand (m : N8nWorkflowManager) (workflowId : string) : string :=
  "docker exec " ++ containerName m ++ " n8n list:workflow | grep " ++ workflowId.

Definition logsCommand (m : N8nWorkflowManager) : string :=
  "docker logs --tail 20 " ++ containerName m.

Definition blank : string := Json.newline ++ Json.newline.

Definition troubleshoot (m : N8nWorkflowManager) (workflowId : JsVal)
  : Prog string :=
  try_catch
    (containerStatus <- executeCommand (statusCommand m) ;;
     let checks1 := ["Container status: " ++ JsString.trim containerStatus] in
     id <- template workflowId ;;
     workflowStatus <- executeCommand (searchCommand m id) ;;
     let checks2 :=
       push checks1 ("Workflow status: " ++ JsString.trim workflowStatus) in
     logs <- executeCommand (logsCommand m) ;;
     let checks3 := push checks2 ("Recent logs:" ++ Json.newline ++ logs) in
     ret (JsString.join blank checks3))
    (fun error => ret ("Error during troubleshooting: " ++ message error)).

(** *** [MCPServer] *)

(** [const { method, params } = request] throws on [undefined] and
    [null], and [params.key] does so when [params] is one of them. *)
Definition destructure (request : JsVal) (key : string) : Prog JsVal :=
  match Js.get request key with
  | Some x => ret x
  | None =>
      throw ("Cannot destructure property '" ++ key ++ "' of 'request' as it is "
               ++ Js.nullish_name request ++ ".")
  end.

Definition member (v : JsVal) (key : string) : Prog JsVal :=
  match Js.get v key with
  | Some x => ret x
  | None =>
      throw ("Cannot read properties of " ++ Js.nullish_name v
               ++ " (reading '" ++ key ++ "')")
  end.

Inductive Command : Type :=
| ListWorkflows | UpdateWorkflow | RestartContainer | BackupWorkflows | Troubleshoot.


(** The [switch (method)]; [===] holds for a string only. *)
Definition route (method : JsVal) : option Command :=
  match method with
  | JStr name =>
      if String.eqb name "list-workflows" then Some ListWorkflows
      else if String.eqb name "update-workflow" then Some UpdateWorkflow
      else if String.eqb name "restart-container" then Some RestartContainer
      else if String.eqb name "backup-workflows" then Some BackupWorkflows
      else if String.eqb name "troubleshoot" then Some Troubleshoot
      else None
  | _ => None
  end.

Definition invoke (m : N8nWorkflowManager) (c : Command) (params : JsVal)
  : Prog string :=
  match c with
  | ListWorkflows => listWorkflows m
  | UpdateWorkflow =>
      id <- member params "id" ;;
      file <- member params "file" ;;
      updateWorkflow m id file
  | RestartContainer => restartContainer m
  | BackupWorkflows => backupWorkflows m
  | Troubleshoot =>
      workflow <- member params "workflow" ;;
      troubleshoot m workflow
  end.

Definition handleRequest (m : N8nWorkflowManager) (request : JsVal) : Prog string :=
  method <- destructure request "method" ;;
  params <- destructure request "params" ;;
  match route method with
  | Some c => invoke m c params
  | None => ret "Unknown command"
  end.

(** A chunk read from standard input, seen through [JSON.parse]: it does
    not parse, with the message of the SyntaxError, or it is a value. *)
Inductive Chunk : Type :=
| Malformed (syntaxError : string)
| Parsed (request : JsVal).

Definition JSON_parse (data : Chunk) : Prog JsVal :=
  match data with
  | Malformed msg => throw msg
  | Parsed v => ret v
  end.

Definition resultLine (response : string) : string :=
  Json.text_of (Json.stringify (JObj [("result", JStr response)])).

Definition errorLine (msg : string) : string :=
  Json.text_of (Json.stringify (JObj [("error", JStr msg)])).

(** The listener that [start] installs on standard input. *)
Definition onData (m : N8nWorkflowManager) (data : Chunk) : Prog unit :=
  try_catch
    (request <- JSON_parse data ;;
     response <- handleRequest m request ;;
     console_log (resultLine response))
    (fun error => console_error (errorLine (message error))).

Fixpoint serve (m : N8nWorkflowManager) (chunks : list Chunk) : Prog unit :=
  match chunks with
  | [] => ret tt
  | d :: rest => onData m d ;; serve m rest
  end.

End Stdio.

(** ** Hosts and worlds used in examples *)

Module Hosts.

(** Every command exits with status 0 and prints [out]. *)
Definition printing (out : string) : Host :=
  {| respond := fun _ _ => Exited out EmptyString;
     elapsed := fun _ _ => 120%N |}.

(** A command that contains [needle] fails with [msg]; every other
    command succeeds silently. *)
Definition failing_on (needle msg : string) : Host :=
  {| respond := fun _ command =>
                  if JsString.includes needle command then Failed msg
                  else Exited EmptyString EmptyString;
     elapsed := fun _ _ => 120%N |}.

(** The process just started, with the clock at [t]. *)
Definition boot (h : Host) (t : Z) : World :=
  {| host := h; now := t; log := [] |}.

Definition manager : N8nWorkflowManager := newManager None.

(** The listing of the specification's example. *)
Definition sampleListing : string :=
  "id1  WorkflowA  Active" ++ Json.newline ++ "id2  WorkflowB  Inactive".

End Hosts.

(** The commands a stretch of the log ran, in order. *)
Fixpoint commands (evs : list Event) : list string :=
  match evs with
  | [] => []
  | Exec c _ :: r => c :: commands r
  | _ :: r => commands r
  end.

(** White space only, the empty string included. *)
Fixpoint all_ws (s : string) : bool :=
  match s with
  | EmptyString => true
  | String c r => (JsString.is_ws c && all_ws r)%bool
  end.

(** The steps of an update, in the order the stdio server runs them.  A
    command line that cannot be built, because the value to insert has no
    text, ends the plan. *)
Definition stdio_update_plan (m : N8nWorkflowManager) (id file : JsVal) : list string :=
  match Js.toString id, Js.toString file with
  | Some i, Some f =>
      [ Stdio.exportCommand m i; Stdio.copyCommand m f; Stdio.importCommand m;
        Stdio.activateCommand m i; Stdio.restartCommand m ]
  | Some i, None => [ Stdio.exportCommand m i ]
  | None, _ => []
  end.

(** The steps of an update in [index.js], for a temporary file named after
    the time [t]. *)
Definition sdk_update_plan (m : N8nWorkflowManager) (data : JsVal) (t : Z) : list string :=
  [ Sdk.echoCommand data (Sdk.tmpFileAt t); Sdk.copyCommand m (Sdk.tmpFileAt t);
    Sdk.importCommand m; Sdk.rmCommand (Sdk.tmpFileAt t) ].

(** Events that are calls to the outside: child processes and timers. *)
Definition is_external (e : Event) : bool :=
  match e with
  | Exec _ _ | Sleep _ => true
  | _ => false
  end.

(** Nothing was written to the console. *)
Definition silent (evs : list Event) : bool := forallb is_external evs.

Definition is_failure (e : Event) : bool :=
  match e with
  | Exec _ (Failed _) => true
  | _ => false
  end.

(** Some command failed. *)
Definition some_failed (evs : list Event) : bool := existsb is_failure evs.



(** An operation of the stdio server's manager: it always returns a text,
    it writes nothing to the console, and when one of its commands has
    failed the text begins with [Error]. *)
Definition returns_text (op : Prog string) : Prop :=
  forall w : World,
  exists (evs : list Event) (s : string),
    op w = (Normal s, snd (op w))
    /\ log (snd (op w)) = (log w ++ evs)%list
    /\ silent evs = true
    /\ (some_failed evs = true -> prefix "Error" s = true).

(** The cases of the stdio server's switch that read a member of [params]. *)
Definition readsParams (c : Stdio.Command) : bool :=
  match c with
  | Stdio.UpdateWorkflow | Stdio.Troubleshoot => true
  | _ => false
  end.

(** [undefined] and [null], the two values without properties. *)
Definition nullish (v : JsVal) : bool :=
  match v with
  | JUndefined | JNull => true
  | _ => false
  end.

(** ** Columns of a listing *)

(** No two white-space characters in a row. *)
Fixpoint no_gap_inside (s : string) : bool :=
  match s with
  | String a r =>
      match r with
      | String b _ => (negb (JsString.is_ws a && JsString.is_ws b) && no_gap_inside r)%bool
      | EmptyString => true
      end
  | EmptyString => true
  end.

Definition starts_solid (s : string) : bool :=
  match s with
  | String c _ => negb (JsString.is_ws c)
  | EmptyString => false
  end.

Fixpoint ends_solid (s : string) : bool :=
  match s with
  | EmptyString => false
  | String c r =>
      match r with
      | EmptyString => negb (JsString.is_ws c)
      | String _ _ => ends_solid r
      end
  end.

(** A column: not empty, no white space at either end, and inside at most
    single white-space characters (as in a name of several words). *)
Definition is_column (s : string) : bool :=
  (starts_solid s && ends_solid s && no_gap_inside s)%bool.

(** What separates two columns: two or more white-space characters. *)
Definition is_gap (g : string) : bool :=
  (all_ws g && Nat.leb 2 (String.length g))%bool.

(** A first column followed by more columns, each after its gap. *)
Fixpoint spaced (first : string) (more : list (string * string)) : string :=
  match more with
  | [] => first
  | (g, c) :: r => first ++ g ++ spaced c r
  end.

(** The number of occurrences of a character. *)
Fixpoint count_char (c : ascii) (s : string) : nat :=
  match s with
  | EmptyString => 0
  | String a r => (if Ascii.eqb a c then 1 else 0) + count_char c r
  end.

(** Characters of a file name that a shell and [docker cp] take literally:
    letters, digits, [-], [+] and [.]. *)
Definition is_name_char (c : ascii) : bool :=
  let n := N_of_ascii c in
  ((48 <=? n) && (n <=? 57) || (65 <=? n) && (n <=? 90) || (97 <=? n) && (n <=? 122)
   || (n =? 45) || (n =? 43) || (n =? 46))%N.

Fixpoint all_chars (p : ascii -> bool) (s : string) : bool :=
  match s with
  | EmptyString => true
  | String c r => (p c && all_chars p r)%bool
  end.

(** ** More hosts for examples *)

(** Every command exits with status 0, prints [out] and writes [err] to its
    standard error. *)
Definition chatty_host (out err : string) : Host :=
  {| respond := fun _ _ => Exited out err;
     elapsed := fun _ _ => 120%N |}.

(** An operation of the manager of [index.js] that throws exactly when one
    of its commands has failed, with a message that begins with [pre]. *)
Definition fails_with (pre : string) {A : Type} (op : Prog A) : Prop :=
  forall w : World,
  exists evs : list Event,
    log (snd (op w)) = (log w ++ evs)%list
    /\ match fst (op w) with
       | Normal _ => some_failed evs = false
       | Throw e => some_failed evs = true /\ prefix pre (message e) = true
       end.

(** The steps of a diagnosis in [index.js]; a workflow id without a text
    leaves out the search. *)
Definition sdk_troubleshoot_plan (m : N8nWorkflowManager) (id : JsVal) : list string :=
  match Js.toString id with
  | Some i => [ Sdk.statusCommand m; Sdk.searchCommand m i; Sdk.logsCommand m ]
  | None => [ Sdk.statusCommand m; Sdk.logsCommand m ]
  end.

(** A timer was set. *)
Definition is_sleep (e : Event) : bool :=
  match e with
  | Sleep _ => true
  | _ => false
  end.

Definition waits (evs : list Event) : bool := existsb is_sleep evs.

(** An operation of the stdio server's manager whose answer to a failed
    command is [pre] followed by the message of the failure, and which runs
    nothing after it. *)
Definition answers_the_failure (pre : string) (op : Prog string) : Prop :=
  forall (w : World) (evs : list Event) (c msg : string),
    log (snd (op w)) = (log w ++ evs)%list ->
    In (Exec c (Failed msg)) evs ->
    fst (op w) = Normal (pre ++ msg)
    /\ exists before,
         evs = (before ++ [Exec c (Failed msg)])%list
         /\ some_failed before = false.

(** A workflow id with a member [toString] of its own, which is no
    function. *)
Definition opaqueId : JsVal := JObj [("toString", JNum "1")].

(** An operation that sets no timer. *)
Definition never_waits {A : Type} (op : Prog A) : Prop :=
  forall w : World,
  exists evs : list Event,
    log (snd (op w)) = (log w ++ evs)%list /\ waits evs = false.


(** The member of [params] that a case of the stdio server's switch reads
    first. *)
Definition firstParam (c : Stdio.Command) : string :=
  match c with
  | Stdio.UpdateWorkflow => "id"
  | Stdio.Troubleshoot => "workflow"
  | _ => EmptyString
  end.

(** * Properties *)

(** ** Running a command *)

Lemma sdk_executeCommand_exited (command out err : string) (w : World) :
  respond (host w) (log w) command = Exited out err ->
  fst (Sdk.executeCommand command w) = Normal out.
Proof.
  intros H. unfold Sdk.executeCommand, try_catch, bind, exec.
  rewrite H.
  destruct (negb (err =? "") && negb (JsString.includes "WARNING" err))%bool;
    reflexivity.
Qed.

Lemma sdk_listWorkflows_exited (m : N8nWorkflowManager) (out err : string) (w : World) :
  respond (host w) (log w) (Sdk.listCommand m) = Exited out err ->
  fst (Sdk.listWorkflows m w) = Normal (Sdk.parseListing out).
Proof.
  intros H. pose proof (sdk_executeCommand_exited _ _ _ _ H) as E.
  unfold Sdk.listWorkflows, try_catch, bind.
  destruct (Sdk.executeCommand (Sdk.listCommand m) w) as [[a|e] w']; simpl in E.
  - inversion E; subst. reflexivity.
  - discriminate.
Qed.

(** ** Parsing the listing *)

Lemma trimStart_all_ws (s : string) : all_ws s = true -> JsString.trimStart s = "".
Proof.
  induction s as [|c r IH]; simpl; [reflexivity|].
  intros H. apply andb_prop in H as [Hc Hr]. rewrite Hc. auto.
Qed.

Lemma trim_all_ws (s : string) : all_ws s = true -> JsString.trim s = "".
Proof.
  intros H. unfold JsString.trim. rewrite trimStart_all_ws by assumption. reflexivity.
Qed.

Lemma split_on_nonempty sep s : JsString.split_on sep s <> [].
Proof.
  destruct s as [|c r]; simpl; [discriminate|].
  destruct (Ascii.eqb c sep); [discriminate|].
  destruct (JsString.split_on sep r); discriminate.
Qed.

(** Splitting a text at a separator loses nothing: joining the pieces with
    the separator gives the text back. *)
Lemma join_split_on sep s :
  JsString.join (String sep EmptyString) (JsString.split_on sep s) = s.
Proof.
  induction s as [|c r IH]; simpl; [reflexivity|].
  pose proof (split_on_nonempty sep r) as Hne.
  destruct (Ascii.eqb_spec c sep) as [->|Hc].
  - destruct (JsString.split_on sep r) as [|p l] eqn:E; [contradiction|].
    simpl. simpl in IH. rewrite IH. reflexivity.
  - destruct (JsString.split_on sep r) as [|p l] eqn:E; [contradiction|].
    simpl in *. destruct l; simpl in *; rewrite <- IH; reflexivity.
Qed.

(** A trimmed text does not begin with white space. *)
Lemma trimStart_head s c r :
  JsString.trimStart s = String c r -> JsString.is_ws c = false.
Proof.
  induction s as [|a s IH]; simpl; [discriminate|].
  destruct (JsString.is_ws a) eqn:E; [exact IH|].
  intros H. injection H as <- _. exact E.
Qed.

(** C1. When the list command prints the two lines
    [id1  WorkflowA  Active] and [id2  WorkflowB  Inactive], the list
    operation of [index.js] answers exactly the two summaries
    (id1, WorkflowA, active) and (id2, WorkflowB, not active), in that
    order; and for any line the [active] flag is true exactly when the
    third column is the text [Active]. *)
Theorem list_parses_tabular_output
        (m : N8nWorkflowManager) (w : World) (err : string)
        (H : respond (host w) (log w) (Sdk.listCommand m)
             = Exited Hosts.sampleListing err) :
  fst (Sdk.listWorkflows m w)
  = Normal [ {| Sdk.id := Some "id1"; Sdk.name := Some "WorkflowA"; Sdk.active := true |};
             {| Sdk.id := Some "id2"; Sdk.name := Some "WorkflowB"; Sdk.active := false |} ]
  /\ forall line : string,
       Sdk.active (Sdk.parseLine line) = true
       <-> nth_error (JsString.split_gaps (JsString.trim line)) 2 = Some "Active".
Proof.
  split.
  - rewrite (sdk_listWorkflows_exited _ _ _ _ H). reflexivity.
  - intros line.
    change (Sdk.active (Sdk.parseLine line))
      with (Sdk.is_Active (nth_error (JsString.split_gaps (JsString.trim line)) 2)).
    destruct (nth_error (JsString.split_gaps (JsString.trim line)) 2) as [s|];
      unfold Sdk.is_Active.
    + rewrite String.eqb_eq. split; [intros ->; reflexivity | congruence].
    + split; discriminate.
Qed.

Lemma list_parses_tabular_output_witness :
  let w := Hosts.boot (Hosts.printing Hosts.sampleListing) 1700000000000 in
  respond (host w) (log w) (Sdk.listCommand Hosts.manager)
  = Exited Hosts.sampleListing EmptyString
  /\ fst (Sdk.listWorkflows Hosts.manager w)
     = Normal [ {| Sdk.id := Some "id1"; Sdk.name := Some "WorkflowA";
                   Sdk.active := true |};
                {| Sdk.id := Some "id2"; Sdk.name := Some "WorkflowB";
                   Sdk.active := false |} ].
Proof.
  intros w. split; [reflexivity|].
  apply (list_parses_tabular_output Hosts.manager w EmptyString). reflexivity.
Defined.

(** C9. When the list command succeeds and prints nothing, or white space
    only, the list operation of [index.js] does not answer the empty
    sequence but one summary whose id is the empty string, whose name is
    undefined and whose active flag is false. *)
Theorem list_of_blank_output_is_one_degenerate_summary
        (m : N8nWorkflowManager) (w : World) (out err : string)
        (H : respond (host w) (log w) (Sdk.listCommand m) = Exited out err)
        (Hblank : all_ws out = true) :
  fst (Sdk.listWorkflows m w)
  = Normal [ {| Sdk.id := Some ""; Sdk.name := None; Sdk.active := false |} ].
Proof.
  rewrite (sdk_listWorkflows_exited _ _ _ _ H).
  unfold Sdk.parseListing. rewrite (trim_all_ws _ Hblank). reflexivity.
Qed.

Lemma list_of_blank_output_witness :
  let w := Hosts.boot (Hosts.printing "   ") 0 in
  respond (host w) (log w) (Sdk.listCommand Hosts.manager) = Exited "   " EmptyString
  /\ all_ws "   " = true
  /\ fst (Sdk.listWorkflows Hosts.manager w)
     = Normal [ {| Sdk.id := Some ""; Sdk.name := None; Sdk.active := false |} ].
Proof.
  intros w. split; [reflexivity|]. split; [reflexivity|].
  apply (list_of_blank_output_is_one_degenerate_summary Hosts.manager w
           "   " EmptyString); reflexivity.
Defined.

(** ** Tactics for running an operation against an arbitrary host *)

Lemma append_cancel_l (s a b : string) : s ++ a = s ++ b -> a = b.
Proof.
  induction s as [|c s IH]; simpl; intros H; [assumption|].
  injection H as H. auto.
Qed.

(** Case analysis on the reply to the next command the program runs. *)
Ltac next_reply :=
  match goal with
  | |- context [respond ?h ?l ?c] =>
      lazymatch l with
      | context [respond _ _ _] => fail
      | _ => let E := fresh "Ereply" in
             destruct (respond h l c) as [? ?|?] eqn:E; simpl
      end
  end.

(** Case analysis on whether a standard error text is echoed. *)
Ltac next_noise :=
  match goal with
  | |- context [(negb (String.eqb ?e EmptyString) && ?b)%bool] =>
      destruct (negb (String.eqb e EmptyString) && b)%bool; simpl
  end.

Lemma no_new_events {A} (l evs : list A) : l = (l ++ evs)%list -> [] = evs.
Proof.
  intros H. rewrite <- (app_nil_r l) in H at 1. exact (app_inv_head _ _ _ H).
Qed.

(** From [log w' = log w ++ evs], the events [evs] themselves. *)
Ltac new_events Hrun Hlog :=
  inversion Hrun; subst; clear Hrun;
  simpl in Hlog; unfold push in Hlog; rewrite <- ?app_assoc in Hlog;
  first [ apply app_inv_head in Hlog | apply no_new_events in Hlog ];
  simpl in Hlog; subst.

(** Two command lines that differ in their fixed text. *)
Ltac differ H :=
  unfold Stdio.exportCommand, Stdio.copyCommand, Stdio.importCommand,
    Stdio.activateCommand, Stdio.restartCommand,
    Sdk.echoCommand, Sdk.copyCommand, Sdk.importCommand, Sdk.rmCommand in H;
  simpl in H;
  first [ discriminate H
        | repeat (injection H as H);
          apply append_cancel_l in H; simpl in H; discriminate H ].

Ltac other_event H :=
  first [ discriminate H
        | let Hc := fresh "Hc" in let Hr := fresh "Hr" in
          injection H as Hc Hr; differ Hc ].

Lemma stdio_update_failed_import m id file w r w' evs msg :
  Stdio.updateWorkflow m id file w = (r, w') ->
  log w' = (log w ++ evs)%list ->
  In (Exec (Stdio.importCommand m) (Failed msg)) evs ->
  r = Normal ("Error updating workflow: " ++ msg)
  /\ (exists i f o1 e1 o2 e2,
        Js.toString id = Some i /\ Js.toString file = Some f
        /\ evs = [ Exec (Stdio.exportCommand m i) (Exited o1 e1);
                   Exec (Stdio.copyCommand m f) (Exited o2 e2);
                   Exec (Stdio.importCommand m) (Failed msg) ])
  /\ (forall i, ~ In (Stdio.activateCommand m i) (commands evs))
  /\ ~ In (Stdio.restartCommand m) (commands evs).
Proof.
  unfold Stdio.updateWorkflow, Stdio.executeCommand, template, try_catch, bind,
    exec, ret, throw.
  intros Hrun Hlog Hin.
  destruct (Js.toString id) as [i|]; destruct (Js.toString file) as [f|];
    simpl in Hrun.
  all: revert Hrun; repeat next_reply; intros Hrun; new_events Hrun Hlog.
  all: simpl in Hin.
  all: repeat match goal with
         | H : _ \/ _ |- _ => destruct H as [H|H]
         | H : False |- _ => destruct H
         end.
  all: try solve [exfalso; other_event Hin].
  - injection Hin as Hm; subst.
    split; [reflexivity|]. split; [exists i, f; repeat eexists|].
    simpl. split; [intros i'|]; intros [H|[H|[H|[]]]]; differ H.
Qed.


Lemma sdk_update_failed_import m id data w r w' evs msg :
  Sdk.updateWorkflow m id data w = (r, w') ->
  log w' = (log w ++ evs)%list ->
  In (Exec (Sdk.importCommand m) (Failed msg)) evs ->
  r = Throw {| message := "Failed to update workflow: Command failed: " ++ msg |}
  /\ commands evs
     = [ Sdk.echoCommand data (Sdk.tmpFileAt (now w));
         Sdk.copyCommand m (Sdk.tmpFileAt (now w));
         Sdk.importCommand m ]
  /\ exists before, evs = (before ++ [Exec (Sdk.importCommand m) (Failed msg)])%list.
Proof.
  unfold Sdk.updateWorkflow, Sdk.executeCommand, try_catch, bind, exec, ret,
    date_now, throw, console_error.
  intros Hrun Hlog Hin. simpl in Hrun.
  revert Hrun. repeat (first [next_reply | next_noise]); intros Hrun;
    new_events Hrun Hlog.
  all: simpl in Hin.
  all: repeat match goal with
         | H : _ \/ _ |- _ => destruct H as [H|H]
         | H : False |- _ => destruct H
         end.
  all: try solve [exfalso; other_event Hin].
  all: injection Hin as Hm; subst.
  all: split; [reflexivity|]; split; [reflexivity|].
  - exists [ Exec (Sdk.echoCommand data (Sdk.tmpFileAt (now w))) (Exited stdout stderr);
             Exec (Sdk.copyCommand m (Sdk.tmpFileAt (now w))) (Exited stdout0 stderr0);
             Stderr ("Command stderr: " ++ stderr0) ].
    reflexivity.
  - exists [ Exec (Sdk.echoCommand data (Sdk.tmpFileAt (now w))) (Exited stdout stderr);
             Exec (Sdk.copyCommand m (Sdk.tmpFileAt (now w))) (Exited stdout0 stderr0) ].
    reflexivity.
Qed.

(** ** Updating a workflow *)

Ltac prefix_of_length k :=
  exists k;
  split; [ simpl; unfold push; rewrite <- ?app_assoc;
           first [ reflexivity | symmetry; apply app_nil_r ]
         | split; [ reflexivity | ] ].

Ltac prefix_of_plan fin :=
  eexists;
  first [ prefix_of_length 0%nat; fin | prefix_of_length 1%nat; fin
        | prefix_of_length 2%nat; fin | prefix_of_length 3%nat; fin
        | prefix_of_length 4%nat; fin | prefix_of_length 5%nat; fin ].

Lemma stdio_update_runs_a_prefix m id file w :
  exists evs k,
    log (snd (Stdio.updateWorkflow m id file w)) = (log w ++ evs)%list
    /\ commands evs = firstn k (stdio_update_plan m id file)
    /\ some_failed (removelast evs) = false
    /\ (fst (Stdio.updateWorkflow m id file w) = Normal "Workflow updated successfully"
        -> k = 5%nat /\ length (stdio_update_plan m id file) = 5%nat).
Proof.
  unfold Stdio.updateWorkflow, Stdio.executeCommand, template, try_catch, bind,
    exec, ret, throw, stdio_update_plan.
  destruct (Js.toString id) as [i|]; destruct (Js.toString file) as [f|]; simpl.
  all: repeat next_reply.
  all: prefix_of_plan
         ltac:(split; [ reflexivity
                      | simpl; first [ intros _; split; reflexivity | discriminate ] ]).
Qed.

Lemma sdk_update_runs_a_prefix m id data w :
  exists evs k,
    log (snd (Sdk.updateWorkflow m id data w)) = (log w ++ evs)%list
    /\ commands evs = firstn k (sdk_update_plan m data (now w))
    /\ some_failed (removelast evs) = false
    /\ (1 <= k)%nat
    /\ (fst (Sdk.updateWorkflow m id data w)
        = Normal (Sdk.WithMessage true "Workflow updated successfully")
        -> k = 4%nat).
Proof.
  unfold Sdk.updateWorkflow, Sdk.executeCommand, try_catch, bind, exec, ret,
    date_now, throw, console_error, sdk_update_plan.
  simpl. repeat (first [next_reply | next_noise]).
  all: prefix_of_plan
         ltac:(split; [ reflexivity
                      | split; [ simpl; lia
                               | simpl; first [ reflexivity | discriminate ] ] ]).
Qed.

Lemma sdk_callTool_reports_failed_import m args w resp w' evs msg :
  Sdk.callTool m {| Sdk.tool := "update_workflow"; Sdk.arguments := args |} w
  = (resp, w') ->
  log w' = (log w ++ evs)%list ->
  In (Exec (Sdk.importCommand m) (Failed msg)) evs ->
  resp = Normal {| Sdk.text := "Error: Failed to update workflow: Command failed: " ++ msg;
                   Sdk.isError := Some true |}.
Proof.
  unfold Sdk.callTool, try_catch. cbn [Sdk.tool Sdk.arguments Sdk.route String.eqb
    Ascii.eqb Bool.eqb Sdk.invoke]. unfold Sdk.member, bind.
  intros Hrun Hlog Hin.
  destruct (Js.get args "workflowId") as [id|] eqn:Eid.
  - assert (Edata : exists data, Js.get args "updateData" = Some data).
    { destruct args; simpl in Eid |- *; try discriminate Eid; eauto. }
    destruct Edata as [data Edata]. rewrite Edata in Hrun.
    cbn beta iota in Hrun. unfold ret at 1 2 in Hrun. cbn beta iota in Hrun.
    destruct (sdk_update_runs_a_prefix m id data w) as [evs1 [k [Hlog1 _]]].
    destruct (Sdk.updateWorkflow m id data w) as [[o|e] w1] eqn:Hrun1;
      cbn [snd] in Hlog1.
    + unfold Sdk.answer, ret in Hrun. injection Hrun as <- <-.
      destruct (sdk_update_failed_import m id data w _ _ evs msg Hrun1 Hlog Hin)
        as [Hr _]. discriminate Hr.
    + unfold Sdk.reportError, console_error_obj, bind, ret in Hrun.
      injection Hrun as <- <-.
      cbn [log emit] in Hlog. rewrite Hlog1 in Hlog. unfold push in Hlog.
      rewrite <- app_assoc in Hlog. apply app_inv_head in Hlog. subst evs.
      apply in_app_or in Hin. destruct Hin as [Hin|[Hin|[]]]; [|discriminate Hin].
      destruct (sdk_update_failed_import m id data w _ _ evs1 msg Hrun1 Hlog1 Hin)
        as [Hr _].
      injection Hr as ->. reflexivity.
  - exfalso. unfold throw, Sdk.reportError, console_error_obj, bind, ret in Hrun.
    injection Hrun as <- <-. cbn [log emit] in Hlog. unfold push in Hlog.
    apply app_inv_head in Hlog. subst evs.
    destruct Hin as [Hin|[]]. discriminate Hin.
Qed.

(** C2. Whenever the import command of an update fails, in either server,
    it is the last command of the invocation: the stdio server has then run
    the export, the copy and the import, and neither the activation nor the
    restart; [index.js] has run the echo, the copy and the import.  What
    the caller gets carries the message of the import failure: the text
    [Error updating workflow: <message>] from the stdio server, the
    exception [Failed to update workflow: Command failed: <message>] from
    the manager of [index.js], which its tool-call handler answers as
    [Error: Failed to update workflow: Command failed: <message>]. *)
Theorem update_stops_at_failed_import :
  (forall m id file w r w' evs msg,
      Stdio.updateWorkflow m id file w = (r, w') ->
      log w' = (log w ++ evs)%list ->
      In (Exec (Stdio.importCommand m) (Failed msg)) evs ->
      r = Normal ("Error updating workflow: " ++ msg)
      /\ (exists i f o1 e1 o2 e2,
            Js.toString id = Some i /\ Js.toString file = Some f
            /\ evs = [ Exec (Stdio.exportCommand m i) (Exited o1 e1);
                       Exec (Stdio.copyCommand m f) (Exited o2 e2);
                       Exec (Stdio.importCommand m) (Failed msg) ])
      /\ (forall i, ~ In (Stdio.activateCommand m i) (commands evs))
      /\ ~ In (Stdio.restartCommand m) (commands evs))
  /\
  (forall m id data w r w' evs msg,
      Sdk.updateWorkflow m id data w = (r, w') ->
      log w' = (log w ++ evs)%list ->
      In (Exec (Sdk.importCommand m) (Failed msg)) evs ->
      r = Throw {| message := "Failed to update workflow: Command failed: " ++ msg |}
      /\ commands evs
         = [ Sdk.echoCommand data (Sdk.tmpFileAt (now w));
             Sdk.copyCommand m (Sdk.tmpFileAt (now w));
             Sdk.importCommand m ]
      /\ exists before,
           evs = (before ++ [Exec (Sdk.importCommand m) (Failed msg)])%list)
  /\
  (forall m args w resp w' evs msg,
      Sdk.callTool m {| Sdk.tool := "update_workflow"; Sdk.arguments := args |} w
      = (resp, w') ->
      log w' = (log w ++ evs)%list ->
      In (Exec (Sdk.importCommand m) (Failed msg)) evs ->
      resp = Normal {| Sdk.text :=
                         "Error: Failed to update workflow: Command failed: " ++ msg;
                       Sdk.isError := Some true |}).
Proof.
  split; [|split].
  - exact stdio_update_failed_import.
  - exact sdk_update_failed_import.
  - exact sdk_callTool_reports_failed_import.
Qed.

Lemma update_stops_at_failed_import_witness :
  let w := Hosts.boot (Hosts.failing_on "import:workflow" "exit code 1") 1700000000000 in
  let old := Stdio.updateWorkflow Hosts.manager (JStr "7") (JStr "new.json") w in
  let new := Sdk.updateWorkflow Hosts.manager (JStr "7") (JObj [("name", JStr "A")]) w in
  (In (Exec (Stdio.importCommand Hosts.manager) (Failed "exit code 1")) (log (snd old))
   /\ fst old = Normal "Error updating workflow: exit code 1")
  /\ (In (Exec (Sdk.importCommand Hosts.manager) (Failed "exit code 1")) (log (snd new))
      /\ fst new
         = Throw {| message :=
                      "Failed to update workflow: Command failed: exit code 1" |}).
Proof.
  intros w old new. split; split.
  - vm_compute. tauto.
  - apply (proj1 update_stops_at_failed_import Hosts.manager (JStr "7")
             (JStr "new.json") w (fst old) (snd old) (log (snd old)) "exit code 1").
    + reflexivity.
    + reflexivity.
    + vm_compute. tauto.
  - vm_compute. tauto.
  - apply (proj1 (proj2 update_stops_at_failed_import) Hosts.manager (JStr "7")
             (JObj [("name", JStr "A")]) w (fst new) (snd new) (log (snd new))
             "exit code 1").
    + reflexivity.
    + reflexivity.
    + vm_compute. tauto.
Defined.

(** Closes a goal [exists evs k, _] about the prefix of a plan that a run
    executed, once the run has been computed. *)
Ltac run_to_failure k :=
  exists k;
  split; [ simpl; unfold push; rewrite <- ?app_assoc;
           first [ reflexivity | symmetry; apply app_nil_r ] | ];
  split; [ reflexivity | ];
  split; [ reflexivity | ];
  split; [ simpl; first [ intros _; reflexivity | intros Hf; discriminate Hf ] | ];
  simpl; split;
  [ intros Hr; first [ discriminate Hr | split; reflexivity | reflexivity ]
  | first [ intros [Hf Hl]; first [ discriminate Hf | discriminate Hl | reflexivity ]
          | intros Hf; first [ discriminate Hf | reflexivity ] ] ].

Ltac runs_to_failure :=
  eexists;
  first [ run_to_failure 0%nat | run_to_failure 1%nat | run_to_failure 2%nat
        | run_to_failure 3%nat | run_to_failure 4%nat | run_to_failure 5%nat ].

Lemma stdio_update_runs_to_the_first_failure m id file w :
  exists evs k,
    log (snd (Stdio.updateWorkflow m id file w)) = (log w ++ evs)%list
    /\ commands evs = firstn k (stdio_update_plan m id file)
    /\ some_failed (removelast evs) = false
    /\ (some_failed evs = false -> k = length (stdio_update_plan m id file))
    /\ (fst (Stdio.updateWorkflow m id file w) = Normal "Workflow updated successfully"
        <-> some_failed evs = false /\ length (stdio_update_plan m id file) = 5%nat).
Proof.
  unfold Stdio.updateWorkflow, Stdio.executeCommand, template, try_catch, bind,
    exec, ret, throw, stdio_update_plan.
  destruct (Js.toString id) as [i|]; destruct (Js.toString file) as [f|]; simpl.
  all: repeat next_reply.
  all: runs_to_failure.
Qed.

Lemma sdk_update_runs_to_the_first_failure m id data w :
  exists evs k,
    log (snd (Sdk.updateWorkflow m id data w)) = (log w ++ evs)%list
    /\ commands evs = firstn k (sdk_update_plan m data (now w))
    /\ some_failed (removelast evs) = false
    /\ (some_failed evs = false -> k = length (sdk_update_plan m data (now w)))
    /\ (fst (Sdk.updateWorkflow m id data w)
        = Normal (Sdk.WithMessage true "Workflow updated successfully")
        <-> some_failed evs = false).
Proof.
  unfold Sdk.updateWorkflow, Sdk.executeCommand, try_catch, bind, exec, ret,
    date_now, throw, console_error, sdk_update_plan.
  simpl. repeat (first [next_reply | next_noise]).
  all: runs_to_failure.
Qed.

(** C4, as the code has it.  An update runs the commands of a fixed plan in
    order, each one as soon as all those before it have succeeded, and
    stops at the first one that fails: what it has run is a prefix of the
    plan, no command before the last one run has failed, and when none has
    failed the whole plan has run.  It reports success exactly then.
    In the stdio server the plan is: export the workflow to a backup file,
    copy the update file into the container, import, activate the
    workflow, restart the container; so the import runs only after the
    export has succeeded.  In [index.js] the plan is: write the inline
    payload to a temporary file, copy it into the container, import, remove
    the temporary file; there is no export, activation or restart. *)
Theorem update_runs_its_plan_in_order :
  (forall m id file w,
      exists evs k,
        log (snd (Stdio.updateWorkflow m id file w)) = (log w ++ evs)%list
        /\ commands evs = firstn k (stdio_update_plan m id file)
        /\ some_failed (removelast evs) = false
        /\ (some_failed evs = false -> k = length (stdio_update_plan m id file))
        /\ (fst (Stdio.updateWorkflow m id file w)
            = Normal "Workflow updated successfully"
            <-> some_failed evs = false
                /\ length (stdio_update_plan m id file) = 5%nat))
  /\
  (forall m id data w,
      exists evs k,
        log (snd (Sdk.updateWorkflow m id data w)) = (log w ++ evs)%list
        /\ commands evs = firstn k (sdk_update_plan m data (now w))
        /\ some_failed (removelast evs) = false
        /\ (some_failed evs = false
            -> k = length (sdk_update_plan m data (now w)))
        /\ (fst (Sdk.updateWorkflow m id data w)
            = Normal (Sdk.WithMessage true "Workflow updated successfully")
            <-> some_failed evs = false))
  /\
  (forall m id file i f,
      Js.toString id = Some i -> Js.toString file = Some f ->
      stdio_update_plan m id file
      = [ Stdio.exportCommand m i; Stdio.copyCommand m f; Stdio.importCommand m;
          Stdio.activateCommand m i; Stdio.restartCommand m ]).
Proof.
  split; [|split].
  - exact stdio_update_runs_to_the_first_failure.
  - exact sdk_update_runs_to_the_first_failure.
  - intros m id file i f Hi Hf. unfold stdio_update_plan. rewrite Hi, Hf.
    reflexivity.
Qed.

(** C4 fails on [index.js]: this update succeeds, its import runs, and no
    export or backup of the workflow runs before it, nor at all; neither
    does an activation or a restart. *)
Lemma update_without_backup_counterexample :
  let w := Hosts.boot (Hosts.printing EmptyString) 1700000000000 in
  let run := Sdk.updateWorkflow Hosts.manager (JStr "7") (JArr [JNum "1"]) w in
  fst run = Normal (Sdk.WithMessage true "Workflow updated successfully")
  /\ commands (log (snd run))
     = [ "echo '[1]' > /tmp/workflow-update-1700000000000.json";
         "docker cp /tmp/workflow-update-1700000000000.json n8n-container:/tmp/update.json";
         "docker exec n8n-container n8n import:workflow --input=/tmp/update.json";
         "rm /tmp/workflow-update-1700000000000.json" ]
  /\ existsb (JsString.includes "export") (commands (log (snd run))) = false
  /\ existsb (JsString.includes "update:workflow") (commands (log (snd run))) = false
  /\ existsb (JsString.includes "restart") (commands (log (snd run))) = false.
Proof.
  vm_compute. repeat split.
Qed.

(** ** Troubleshooting *)

Ltac differ_checks H :=
  unfold Sdk.statusCommand, Sdk.searchCommand, Sdk.logsCommand,
    Stdio.statusCommand, Stdio.searchCommand, Stdio.logsCommand in H;
  simpl in H; discriminate H.

Ltac other_check H :=
  first [ discriminate H
        | let Hc := fresh "Hc" in let Hr := fresh "Hr" in
          injection H as Hc Hr; differ_checks Hc ].

Lemma Exec_inj c c' r r' : Exec c r = Exec c' r' -> c = c' /\ r = r'.
Proof. intros H. injection H as -> ->. split; reflexivity. Qed.

Lemma sdk_searchCommand_inj m a b :
  Sdk.searchCommand m a = Sdk.searchCommand m b -> a = b.
Proof.
  unfold Sdk.searchCommand. intros H. do 3 apply append_cancel_l in H. exact H.
Qed.

Lemma stdio_searchCommand_inj m a b :
  Stdio.searchCommand m a = Stdio.searchCommand m b -> a = b.
Proof.
  unfold Stdio.searchCommand. intros H. do 3 apply append_cancel_l in H. exact H.
Qed.

Ltac split_cases_of H :=
  cbn [In] in H;
  repeat match goal with
    | H' : _ \/ _ |- _ => destruct H' as [H'|H']
    | H' : False |- _ => destruct H'
    end.

(** In [index.js] a failed search is caught where it happens: the entry
    [Workflow not found] takes the place of the search result and the logs
    are fetched all the same. *)
Lemma sdk_troubleshoot_reports_missing_workflow m id text w r w' evs msg :
  Sdk.troubleshoot m id w = (r, w') ->
  log w' = (log w ++ evs)%list ->
  In (Exec (Sdk.searchCommand m text) (Failed msg)) evs ->
  commands evs = [ Sdk.statusCommand m; Sdk.searchCommand m text; Sdk.logsCommand m ]
  /\ exists status err,
       In (Exec (Sdk.statusCommand m) (Exited status err)) evs
       /\ forall logs err',
            In (Exec (Sdk.logsCommand m) (Exited logs err')) evs ->
            r = Normal
                  [ {| Sdk.check := "Container Status";
                       Sdk.result := JsString.trim status |};
                    {| Sdk.check := "Workflow Status";
                       Sdk.result := "Workflow not found" |};
                    {| Sdk.check := "Recent Logs"; Sdk.result := logs |} ].
Proof.
  unfold Sdk.troubleshoot, Sdk.executeCommand, template, try_catch, bind, exec,
    ret, throw, console_error.
  intros Hrun Hlog Hin.
  destruct (Js.toString id) as [i|]; simpl in Hrun.
  all: revert Hrun; repeat (first [next_reply | next_noise]); intros Hrun;
    new_events Hrun Hlog.
  all: split_cases_of Hin.
  all: try solve [exfalso; other_check Hin].
  all: apply Exec_inj in Hin; destruct Hin as [Hc Hm];
    apply sdk_searchCommand_inj in Hc; injection Hm as Hm; subst.
  all: split; [reflexivity|].
  all: do 2 eexists; split; [simpl; left; reflexivity|].
  all: intros logs err' Hlogs; split_cases_of Hlogs.
  all: try solve [exfalso; other_check Hlogs].
  all: injection Hlogs as -> _; reflexivity.
Qed.

(** C3 does not hold of the stdio server.  It has one handler around the
    three checks: when the search for the workflow id fails, the diagnosis
    ends there; the answer is the text
    [Error during troubleshooting: <message>], without any entry saying
    that the workflow was not found, and the logs are not fetched. *)
Theorem stdio_troubleshoot_aborts_on_missing_workflow
        (m : N8nWorkflowManager) (id : JsVal) (text : string) (w w' : World)
        (r : Completion string) (evs : list Event) (msg : string)
        (Hrun : Stdio.troubleshoot m id w = (r, w'))
        (Hlog : log w' = (log w ++ evs)%list)
        (Hfail : In (Exec (Stdio.searchCommand m text) (Failed msg)) evs) :
  r = Normal ("Error during troubleshooting: " ++ msg)
  /\ commands evs = [ Stdio.statusCommand m; Stdio.searchCommand m text ]
  /\ ~ In (Stdio.logsCommand m) (commands evs).
Proof.
  unfold Stdio.troubleshoot, Stdio.executeCommand, template, try_catch, bind,
    exec, ret, throw in Hrun.
  rename Hfail into Hin.
  destruct (Js.toString id) as [i|]; simpl in Hrun.
  all: revert Hrun; repeat next_reply; intros Hrun; new_events Hrun Hlog.
  all: split_cases_of Hin.
  all: try solve [exfalso; other_check Hin].
  apply Exec_inj in Hin; destruct Hin as [Hc Hm];
    apply stdio_searchCommand_inj in Hc; injection Hm as Hm; subst.
  split; [reflexivity|]. split; [reflexivity|].
  simpl. intros [H|[H|[]]]; differ_checks H.
Qed.

Lemma stdio_troubleshoot_aborts_witness :
  let msg := "Command failed: docker exec n8n-container n8n list:workflow | grep 42" in
  let w := Hosts.boot (Hosts.failing_on "grep" msg) 1700000000000 in
  let run := Stdio.troubleshoot Hosts.manager (JStr "42") w in
  In (Exec (Stdio.searchCommand Hosts.manager "42") (Failed msg)) (log (snd run))
  /\ fst run = Normal ("Error during troubleshooting: " ++ msg)
  /\ commands (log (snd run))
     = [ Stdio.statusCommand Hosts.manager;
         Stdio.searchCommand Hosts.manager "42" ]
  /\ ~ In (Stdio.logsCommand Hosts.manager) (commands (log (snd run))).
Proof.
  intros msg w run. split.
  - vm_compute. tauto.
  - apply (stdio_troubleshoot_aborts_on_missing_workflow Hosts.manager (JStr "42")
             "42" w (snd run) (fst run) (log (snd run)) msg).
    + reflexivity.
    + reflexivity.
    + vm_compute. tauto.
Defined.

(** In the same world [index.js] completes the diagnosis with its three
    entries. *)
Example sdk_troubleshoot_missing_workflow_example :
  let msg := "Command failed: docker exec n8n-container n8n list:workflow | grep 42" in
  let w := Hosts.boot (Hosts.failing_on "grep" msg) 1700000000000 in
  fst (Sdk.troubleshoot Hosts.manager (JStr "42") w)
  = Normal [ {| Sdk.check := "Container Status"; Sdk.result := EmptyString |};
             {| Sdk.check := "Workflow Status"; Sdk.result := "Workflow not found" |};
             {| Sdk.check := "Recent Logs"; Sdk.result := EmptyString |} ].
Proof. reflexivity. Qed.

(** ** Dispatch *)













(** ** Restarting the container *)

(** C8. When the restart command succeeds, in either server, the restart
    operation waits the fixed delay after the command has completed, 10
    seconds in [index.js] and 20 in the stdio server, then returns its
    success message.  The wait is the last thing it does, and the restart
    is the only command it runs: nothing probes the container. *)
Theorem restart_waits_then_reports_success
        (m : N8nWorkflowManager) (w : World) (out err : string)
        (H : respond (host w) (log w) (Sdk.restartCommand m) = Exited out err) :
  let completed :=
    (now w + Z.of_N (elapsed (host w) (log w) (Sdk.restartCommand m)))%Z in
  (fst (Sdk.restartContainer m w)
   = Normal (Sdk.WithMessage true "Container restarted successfully")
   /\ now (snd (Sdk.restartContainer m w)) = (completed + Sdk.restartDelay)%Z
   /\ exists evs,
        log (snd (Sdk.restartContainer m w))
        = (log w ++ evs ++ [Sleep Sdk.restartDelay])%list
        /\ commands evs = [Sdk.restartCommand m])
  /\
  (fst (Stdio.restartContainer m w) = Normal "Container restarted successfully"
   /\ now (snd (Stdio.restartContainer m w)) = (completed + Stdio.restartDelay)%Z
   /\ log (snd (Stdio.restartContainer m w))
      = (log w ++ [Exec (Stdio.restartCommand m) (Exited out err);
                   Sleep Stdio.restartDelay])%list)
  /\ Sdk.restartDelay = (10 * 1000)%Z /\ Stdio.restartDelay = (20 * 1000)%Z.
Proof.
  intros completed. subst completed.
  split; [|split; [|split; reflexivity]].
  - unfold Sdk.restartContainer, Sdk.executeCommand, try_catch, bind, exec, sleep,
      ret, console_error.
    cbn beta iota. rewrite H. cbn beta iota.
    match goal with
    | |- context [(negb (String.eqb ?e EmptyString) && ?b)%bool] =>
        destruct (negb (String.eqb e EmptyString) && b)%bool
    end.
    + split; [reflexivity|]. split; [reflexivity|].
      exists [Exec (Sdk.restartCommand m) (Exited out err);
              Stderr ("Command stderr: " ++ err)].
      split; [|reflexivity].
      cbn [snd log emit advance]. unfold push. rewrite <- !app_assoc. reflexivity.
    + split; [reflexivity|]. split; [reflexivity|].
      exists [Exec (Sdk.restartCommand m) (Exited out err)].
      split; [|reflexivity].
      cbn [snd log emit advance]. unfold push. rewrite <- !app_assoc. reflexivity.
  - unfold Stdio.restartContainer, Stdio.executeCommand, try_catch, bind, exec,
      sleep, ret.
    change (Stdio.restartCommand m) with (Sdk.restartCommand m).
    cbn beta iota. rewrite H. cbn beta iota.
    split; [reflexivity|]. split; [reflexivity|].
    cbn [snd log emit advance]. unfold push. rewrite <- !app_assoc. reflexivity.
Qed.

Lemma restart_waits_witness :
  let w := Hosts.boot (Hosts.printing "n8n-container") 1700000000000 in
  respond (host w) (log w) (Sdk.restartCommand Hosts.manager)
  = Exited "n8n-container" EmptyString
  /\ now (snd (Sdk.restartContainer Hosts.manager w)) = (1700000000000 + 120 + 10000)%Z
  /\ now (snd (Stdio.restartContainer Hosts.manager w)) = (1700000000000 + 120 + 20000)%Z.
Proof.
  intros w. split; [reflexivity|].
  pose proof (restart_waits_then_reports_success Hosts.manager w
                "n8n-container" EmptyString eq_refl) as [[_ [Hsdk _]] [[_ [Hstdio _]] _]].
  split; [exact Hsdk | exact Hstdio].
Defined.

(** ** The stdio server's manager never throws *)

Ltac text_returned :=
  do 2 eexists;
  split; [reflexivity|];
  split; [cbn [snd log emit advance]; unfold push; rewrite <- ?app_assoc;
          simpl; first [reflexivity | symmetry; apply app_nil_r]|];
  split; [reflexivity|];
  first [ intros _; reflexivity | intros Hf; discriminate Hf ].

Ltac run_stdio :=
  unfold returns_text, Stdio.listWorkflows, Stdio.updateWorkflow,
    Stdio.restartContainer, Stdio.backupWorkflows, Stdio.troubleshoot,
    Stdio.executeCommand, template, try_catch, bind, exec, sleep, date_now, ret,
    throw;
  intros w; cbn beta iota;
  repeat match goal with
    | |- context [Js.toString ?v] => destruct (Js.toString v); cbn beta iota
    end;
  repeat match goal with
    | |- context [respond ?h ?l ?c] =>
        lazymatch l with
        | context [respond _ _ _] => fail
        | _ => let E := fresh "Ereply" in
               destruct (respond h l c) as [? ?|?] eqn:E; cbn beta iota
        end
    end.

Lemma stdio_listWorkflows_returns_text m : returns_text (Stdio.listWorkflows m).
Proof. run_stdio; text_returned. Qed.

Lemma stdio_updateWorkflow_returns_text m id file :
  returns_text (Stdio.updateWorkflow m id file).
Proof. run_stdio; text_returned. Qed.

Lemma stdio_restartContainer_returns_text m : returns_text (Stdio.restartContainer m).
Proof. run_stdio; text_returned. Qed.

Lemma stdio_backupWorkflows_returns_text m : returns_text (Stdio.backupWorkflows m).
Proof. run_stdio; text_returned. Qed.

Lemma stdio_troubleshoot_returns_text m id : returns_text (Stdio.troubleshoot m id).
Proof. run_stdio; text_returned. Qed.

Lemma get_of_object (v : JsVal) (key : string) :
  nullish v = false -> exists x, Js.get v key = Some x.
Proof.
  destruct v; simpl; intros H; try discriminate H; eauto.
Qed.


Lemma stdio_invoke_returns_text m c params :
  (readsParams c = true -> nullish params = false) ->
  returns_text (Stdio.invoke m c params).
Proof.
  intros Hp. destruct c; simpl.
  - apply stdio_listWorkflows_returns_text.
  - destruct (get_of_object params "id" (Hp eq_refl)) as [id Hid].
    destruct (get_of_object params "file" (Hp eq_refl)) as [file Hfile].
    intros w. unfold Stdio.member, bind. rewrite Hid, Hfile. cbn beta iota.
    unfold ret at 1 2. cbn beta iota.
    apply stdio_updateWorkflow_returns_text.
  - apply stdio_restartContainer_returns_text.
  - apply stdio_backupWorkflows_returns_text.
  - destruct (get_of_object params "workflow" (Hp eq_refl)) as [id Hid].
    intros w. unfold Stdio.member, bind. rewrite Hid. cbn beta iota.
    unfold ret at 1. cbn beta iota.
    apply stdio_troubleshoot_returns_text.
Qed.

Lemma stdio_handleRequest_routed m request method params c w :
  Js.get request "method" = Some method ->
  Js.get request "params" = Some params ->
  Stdio.route method = Some c ->
  Stdio.handleRequest m request w = Stdio.invoke m c params w.
Proof.
  intros Hm Hp Hr. unfold Stdio.handleRequest, Stdio.destructure, bind.
  rewrite Hm, Hp. simpl. rewrite Hr. reflexivity.
Qed.

(** What the listener does with the outcome of [handleRequest]. *)
Lemma stdio_onData_parsed m request w :
  Stdio.onData m (Stdio.Parsed request) w
  = match Stdio.handleRequest m request w with
    | (Normal response, w') =>
        (Normal tt, emit (Stdout (Stdio.resultLine response)) w')
    | (Throw error, w') =>
        (Normal tt, emit (Stderr (Stdio.errorLine (message error))) w')
    end.
Proof.
  unfold Stdio.onData, try_catch, bind, Stdio.JSON_parse, ret, console_log,
    console_error.
  destruct (Stdio.handleRequest m request w) as [[response|error] w']; reflexivity.
Qed.

Lemma stdio_onData_result m request method params c w :
  Js.get request "method" = Some method ->
  Js.get request "params" = Some params ->
  Stdio.route method = Some c ->
  (readsParams c = true -> nullish params = false) ->
  exists evs s,
    fst (Stdio.onData m (Stdio.Parsed request) w) = Normal tt
    /\ log (snd (Stdio.onData m (Stdio.Parsed request) w))
       = (log w ++ evs ++ [Stdout (Stdio.resultLine s)])%list
    /\ silent evs = true
    /\ (some_failed evs = true -> prefix "Error" s = true).
Proof.
  intros Hm Hp Hr Hparams.
  rewrite stdio_onData_parsed.
  rewrite (stdio_handleRequest_routed m request method params c w Hm Hp Hr).
  destruct (stdio_invoke_returns_text m c params Hparams w)
    as [evs [s [Hrun [Hlog [Hsilent Hfail]]]]].
  rewrite Hrun. exists evs, s.
  split; [reflexivity|]. split; [|split; assumption].
  cbn [snd log emit]. rewrite Hlog. unfold push. rewrite <- app_assoc. reflexivity.
Qed.

Lemma stdio_nullish_params m request method params c w :
  Js.get request "method" = Some method ->
  Js.get request "params" = Some params ->
  Stdio.route method = Some c ->
  readsParams c = true ->
  nullish params = true ->
  Stdio.onData m (Stdio.Parsed request) w
  = (Normal tt,
     emit (Stderr (Stdio.errorLine
                     ("Cannot read properties of " ++ Js.nullish_name params
                        ++ " (reading '" ++ firstParam c ++ "')"))) w).
Proof.
  intros Hm Hp Hr Hc Hn.
  rewrite stdio_onData_parsed.
  rewrite (stdio_handleRequest_routed m request method params c w Hm Hp Hr).
  destruct c; try discriminate Hc;
    destruct params; try discriminate Hn; reflexivity.
Qed.

(** C10, as the code has it.  No operation of the stdio server's manager
    throws: whether its commands succeed or fail it returns a text, which
    begins with [Error] when a command has failed.  So a request that
    parses and names a known operation is answered with a result field,
    provided its [params] member is neither undefined nor null when the
    operation reads its parameters from it (update-workflow and
    troubleshoot do).  When [params] is undefined or null, these two
    operations are not called: reading the first parameter throws, no
    command is run, and the only answer is an error field, the message of
    the TypeError, on standard error. *)
Theorem stdio_manager_never_throws :
  (forall m, returns_text (Stdio.listWorkflows m))
  /\ (forall m id file, returns_text (Stdio.updateWorkflow m id file))
  /\ (forall m, returns_text (Stdio.restartContainer m))
  /\ (forall m, returns_text (Stdio.backupWorkflows m))
  /\ (forall m id, returns_text (Stdio.troubleshoot m id))
  /\ (forall m request method params c w,
        Js.get request "method" = Some method ->
        Js.get request "params" = Some params ->
        Stdio.route method = Some c ->
        (readsParams c = true -> nullish params = false) ->
        exists evs s,
          fst (Stdio.onData m (Stdio.Parsed request) w) = Normal tt
          /\ log (snd (Stdio.onData m (Stdio.Parsed request) w))
             = (log w ++ evs ++ [Stdout (Stdio.resultLine s)])%list
          /\ silent evs = true
          /\ (some_failed evs = true -> prefix "Error" s = true))
  /\ (forall m request method params c w,
        Js.get request "method" = Some method ->
        Js.get request "params" = Some params ->
        Stdio.route method = Some c ->
        readsParams c = true ->
        nullish params = true ->
        Stdio.onData m (Stdio.Parsed request) w
        = (Normal tt,
           emit (Stderr (Stdio.errorLine
                           ("Cannot read properties of " ++ Js.nullish_name params
                              ++ " (reading '" ++ firstParam c ++ "')"))) w)).
Proof.
  repeat (split; [solve [ exact stdio_listWorkflows_returns_text
                        | exact stdio_updateWorkflow_returns_text
                        | exact stdio_restartContainer_returns_text
                        | exact stdio_backupWorkflows_returns_text
                        | exact stdio_troubleshoot_returns_text ] |]).
  split.
  - exact stdio_onData_result.
  - exact stdio_nullish_params.
Qed.

Lemma stdio_manager_never_throws_witness :
  let w := Hosts.boot (Hosts.failing_on "grep" "exit code 1") 1700000000000 in
  let request := JObj [("method", JStr "troubleshoot");
                       ("params", JObj [("workflow", JStr "42")])] in
  let update := JObj [("method", JStr "update-workflow"); ("params", JNull)] in
  (exists evs s,
     log (snd (Stdio.onData Hosts.manager (Stdio.Parsed request) w))
     = (log w ++ evs ++ [Stdout (Stdio.resultLine s)])%list
     /\ silent evs = true)
  /\ Stdio.onData Hosts.manager (Stdio.Parsed update) w
     = (Normal tt,
        emit (Stderr (Stdio.errorLine "Cannot read properties of null (reading 'id')"))
             w).
Proof.
  intros w request update. split.
  - destruct (proj1 (proj2 (proj2 (proj2 (proj2 (proj2 stdio_manager_never_throws)))))
                Hosts.manager request (JStr "troubleshoot")
                (JObj [("workflow", JStr "42")]) Stdio.Troubleshoot w
                eq_refl eq_refl eq_refl (fun _ => eq_refl))
      as [evs [s [_ [Hlog [Hsilent _]]]]].
    exists evs, s. split; [exact Hlog | exact Hsilent].
  - exact (proj2 (proj2 (proj2 (proj2 (proj2 (proj2 stdio_manager_never_throws)))))
             Hosts.manager update (JStr "update-workflow") JNull
             Stdio.UpdateWorkflow w eq_refl eq_refl eq_refl eq_refl eq_refl).
Defined.

(** C10 fails for a request without [params]: it parses, it names the
    operation troubleshoot, and reading [params.workflow] throws before the
    manager is called, so the listener writes an error field (to standard
    error) and no result. *)
Lemma request_without_params_counterexample :
  let w := Hosts.boot (Hosts.printing "Up 2 hours") 1700000000000 in
  let request := JObj [("method", JStr "troubleshoot")] in
  Stdio.route (Js.lookup "method" [("method", JStr "troubleshoot")])
  = Some Stdio.Troubleshoot
  /\ log (snd (Stdio.onData Hosts.manager (Stdio.Parsed request) w))
     = [ Stderr (Stdio.errorLine
                   "Cannot read properties of undefined (reading 'workflow')") ]
  /\ forall s, ~ In (Stdout (Stdio.resultLine s))
                    (log (snd (Stdio.onData Hosts.manager (Stdio.Parsed request) w))).
Proof.
  intros w request. split; [reflexivity|]. split; [reflexivity|].
  intros s [H|[]]. discriminate H.
Qed.

(** ** Every request is answered *)










(** ** The calendar

    The bounds of the fields of a date, and the day number recovered from
    year, month and day. *)

Module DateFacts.
Import JsDate.
Local Open Scope Z_scope.

Lemma dayOfEra_bounds z : 0 <= dayOfEra z <= 146096.
Proof. unfold dayOfEra. pose proof (Z.mod_pos_bound (z + 719468) 146097). lia. Qed.

Lemma days_of_era z : z + 719468 = era z * 146097 + dayOfEra z.
Proof. unfold era, dayOfEra. pose proof (Z.div_mod (z + 719468) 146097). lia. Qed.

Lemma yearOfEra_bounds doe : 0 <= doe <= 146096 -> 0 <= yearOfEra doe <= 399.
Proof.
  intros H. unfold yearOfEra.
  Z.div_mod_to_equations. lia.
Qed.

Lemma dayOfYear_bounds doe : 0 <= doe <= 146096 -> 0 <= dayOfYear doe <= 365.
Proof.
  intros H. unfold dayOfYear, yearOfEra.
  Z.div_mod_to_equations. lia.
Qed.

Lemma monthFromMarch_bounds doy : 0 <= doy <= 365 -> 0 <= monthFromMarch doy <= 11.
Proof.
  intros H. unfold monthFromMarch. Z.div_mod_to_equations. lia.
Qed.

Lemma month_bounds z : 1 <= month (civil_of_days z) <= 12.
Proof.
  unfold civil_of_days; cbn [month].
  pose proof (dayOfYear_bounds _ (dayOfEra_bounds z)) as Hdoy.
  pose proof (monthFromMarch_bounds _ Hdoy) as Hmp.
  destruct (monthFromMarch (dayOfYear (dayOfEra z)) <? 10) eqn:E;
    [apply Z.ltb_lt in E | apply Z.ltb_ge in E]; lia.
Qed.

Lemma day_bounds z : 1 <= day (civil_of_days z) <= 31.
Proof.
  unfold civil_of_days; cbn [day].
  pose proof (dayOfYear_bounds _ (dayOfEra_bounds z)) as Hdoy.
  unfold monthFromMarch. Z.div_mod_to_equations. lia.
Qed.

Lemma civil_of_days_inj z1 z2 : civil_of_days z1 = civil_of_days z2 -> z1 = z2.
Proof.
  intros H.
  pose proof (dayOfEra_bounds z1) as Hd1. pose proof (dayOfEra_bounds z2) as Hd2.
  pose proof (yearOfEra_bounds _ Hd1) as Hy1. pose proof (yearOfEra_bounds _ Hd2) as Hy2.
  pose proof (dayOfYear_bounds _ Hd1) as Ho1. pose proof (dayOfYear_bounds _ Hd2) as Ho2.
  pose proof (monthFromMarch_bounds _ Ho1) as Hm1.
  pose proof (monthFromMarch_bounds _ Ho2) as Hm2.
  pose proof (days_of_era z1) as E1. pose proof (days_of_era z2) as E2.
  unfold civil_of_days in H. injection H as Hyear Hmonth Hday.
  assert (Hmp : monthFromMarch (dayOfYear (dayOfEra z1))
                = monthFromMarch (dayOfYear (dayOfEra z2))).
  { destruct (monthFromMarch (dayOfYear (dayOfEra z1)) <? 10) eqn:A1;
      destruct (monthFromMarch (dayOfYear (dayOfEra z2)) <? 10) eqn:A2;
      [apply Z.ltb_lt in A1 | apply Z.ltb_lt in A1 | apply Z.ltb_ge in A1
       | apply Z.ltb_ge in A1];
      [apply Z.ltb_lt in A2 | apply Z.ltb_ge in A2 | apply Z.ltb_lt in A2
       | apply Z.ltb_ge in A2]; lia. }
  rewrite Hmp in Hmonth, Hyear, Hday.
  assert (Hdoy : dayOfYear (dayOfEra z1) = dayOfYear (dayOfEra z2)) by lia.
  assert (Hy : yearOfEra (dayOfEra z1) + era z1 * 400
               = yearOfEra (dayOfEra z2) + era z2 * 400) by lia.
  assert (Hera : era z1 = era z2) by lia.
  assert (Hyoe : yearOfEra (dayOfEra z1) = yearOfEra (dayOfEra z2)) by lia.
  assert (Hdoe : dayOfEra z1 = dayOfEra z2).
  { unfold dayOfYear in Hdoy. rewrite Hyoe in Hdoy. lia. }
  lia.
Qed.

End DateFacts.

(** ** The text of a time stamp determines the time *)

Lemma length_append (a b : string) :
  String.length (a ++ b) = (String.length a + String.length b)%nat.
Proof. induction a as [|c a IH]; simpl; [reflexivity|]. rewrite IH. reflexivity. Qed.

Lemma append_inj_length (a a' b b' : string) :
  String.length a = String.length a' ->
  a ++ b = a' ++ b' -> a = a' /\ b = b'.
Proof.
  revert a'. induction a as [|c a IH]; intros [|c' a'] Hlen H; simpl in *;
    try discriminate Hlen.
  - split; [reflexivity | assumption].
  - injection H as Hc Hr. injection Hlen as Hlen.
    destruct (IH a' Hlen Hr) as [-> ->]. subst. split; reflexivity.
Qed.

Lemma replace_append (a b : string) :
  replace_colon_dot (a ++ b) = replace_colon_dot a ++ replace_colon_dot b.
Proof. induction a as [|c a IH]; simpl; [reflexivity|]. rewrite IH. reflexivity. Qed.

Module DigitFacts.
Import JsDate.
Local Open Scope Z_scope.

Lemma digit_code n : N_of_ascii (digit n) = (48 + Z.to_N (n mod 10))%N.
Proof.
  unfold digit. apply N_ascii_embedding.
  pose proof (Z.mod_pos_bound n 10). lia.
Qed.

Lemma digit_inj a b : digit a = digit b -> a mod 10 = b mod 10.
Proof.
  intros H. apply (f_equal N_of_ascii) in H. rewrite !digit_code in H.
  pose proof (Z.mod_pos_bound a 10). pose proof (Z.mod_pos_bound b 10). lia.
Qed.

Lemma digit_is_not (n : Z) (c : ascii) :
  (N_of_ascii c < 48)%N \/ (57 < N_of_ascii c)%N -> digit n <> c.
Proof.
  intros Hc H. apply (f_equal N_of_ascii) in H. rewrite digit_code in H.
  pose proof (Z.mod_pos_bound n 10). lia.
Qed.

Lemma dash_digit n : dash (digit n) = digit n.
Proof.
  unfold dash.
  destruct (Ascii.eqb_spec (digit n) ":") as [E|_].
  - exfalso. revert E. apply digit_is_not. right. reflexivity.
  - destruct (Ascii.eqb_spec (digit n) ".") as [E|_]; [|reflexivity].
    exfalso. revert E. apply digit_is_not. left. reflexivity.
Qed.

Lemma length_pad w n : String.length (pad w n) = w.
Proof.
  revert n. induction w as [|w IH]; intros n; simpl; [reflexivity|].
  rewrite length_append, IH. simpl. lia.
Qed.

Lemma replace_pad w n : replace_colon_dot (pad w n) = pad w n.
Proof.
  revert n. induction w as [|w IH]; intros n; simpl; [reflexivity|].
  rewrite replace_append, IH. simpl. rewrite dash_digit. reflexivity.
Qed.

Lemma pad_inj w a b :
  0 <= a < 10 ^ Z.of_nat w -> 0 <= b < 10 ^ Z.of_nat w ->
  pad w a = pad w b -> a = b.
Proof.
  revert a b. induction w as [|w IH]; intros a b Ha Hb H.
  - simpl in Ha, Hb. lia.
  - simpl in H.
    apply append_inj_length in H; [|rewrite !length_pad; reflexivity].
    destruct H as [Hhigh Hlow]. injection Hlow as Hlow.
    apply digit_inj in Hlow.
    rewrite Nat2Z.inj_succ, Z.pow_succ_r in Ha, Hb by lia.
    assert (Hq : a / 10 = b / 10).
    { apply IH; [| |exact Hhigh]; Z.div_mod_to_equations; lia. }
    Z.div_mod_to_equations. lia.
Qed.

End DigitFacts.

Module StampFacts.
Import JsDate DateFacts DigitFacts.
Local Open Scope Z_scope.

Lemma replace_year_text y : replace_colon_dot (year_text y) = year_text y.
Proof.
  unfold year_text.
  destruct ((0 <=? y) && (y <=? 9999))%bool.
  - apply replace_pad.
  - rewrite replace_append, replace_pad. destruct (y <? 0); reflexivity.
Qed.

(** The year is read off the front of a stamp: four digits, or a sign and
    six digits, and a digit is not a sign. *)
Lemma year_text_inj y y' r r' :
  -1000000 < y < 1000000 -> -1000000 < y' < 1000000 ->
  year_text y ++ r = year_text y' ++ r' -> y = y' /\ r = r'.
Proof.
  intros Hy Hy' H. unfold year_text in H.
  destruct ((0 <=? y) && (y <=? 9999))%bool eqn:C;
    destruct ((0 <=? y') && (y' <=? 9999))%bool eqn:C'.
  - apply andb_prop in C as [C1 C2]. apply andb_prop in C' as [C1' C2'].
    apply Z.leb_le in C1, C2, C1', C2'.
    apply append_inj_length in H; [|rewrite !length_pad; reflexivity].
    destruct H as [H Hr]. split; [|exact Hr].
    apply (pad_inj 4); [simpl; lia | simpl; lia | exact H].
  - exfalso. cbn [pad append] in H.
    destruct (y' <? 0); cbn [append] in H; injection H as Hc _;
      revert Hc; apply digit_is_not; left; reflexivity.
  - exfalso. cbn [pad append] in H. symmetry in H.
    destruct (y <? 0); cbn [append] in H; injection H as Hc _;
      revert Hc; apply digit_is_not; left; reflexivity.
  - apply andb_false_iff in C, C'.
    rewrite !Z.leb_gt in C, C'.
    apply append_inj_length in H;
      [|rewrite !length_append, !length_pad;
        destruct (y <? 0), (y' <? 0); reflexivity].
    destruct H as [H Hr]. split; [|exact Hr].
    apply append_inj_length in H; [|destruct (y <? 0), (y' <? 0); reflexivity].
    destruct H as [Hsign H].
    apply (pad_inj 6) in H; [|simpl; lia|simpl; lia].
    destruct (Z.ltb_spec y 0); destruct (Z.ltb_spec y' 0);
      try discriminate Hsign; lia.
Qed.

Lemma year_bounds t :
  valid_time t -> -1000000 < year (civil_of_days (t / msPerDay)) < 1000000.
Proof.
  unfold valid_time, maxTime, msPerDay. intros Ht.
  unfold civil_of_days; cbn [year].
  set (z := t / 86400000).
  assert (Hz : -100000000 <= z <= 100000000).
  { subst z. Z.div_mod_to_equations. lia. }
  pose proof (yearOfEra_bounds _ (dayOfEra_bounds z)) as Hyoe.
  assert (Hera : -700 <= era z <= 700).
  { unfold era. Z.div_mod_to_equations. lia. }
  destruct (_ <=? 2); lia.
Qed.

(** The stamp of a time value, field by field. *)
Lemma stamp_shape t :
  replace_colon_dot (toISOString t)
  = year_text (year (civil_of_days (t / msPerDay)))
      ++ "-" ++ pad 2 (month (civil_of_days (t / msPerDay)))
      ++ "-" ++ pad 2 (day (civil_of_days (t / msPerDay)))
      ++ "T" ++ pad 2 (t mod msPerDay / 3600000)
      ++ "-" ++ pad 2 (t mod msPerDay / 60000 mod 60)
      ++ "-" ++ pad 2 (t mod msPerDay / 1000 mod 60)
      ++ "-" ++ pad 3 (t mod msPerDay mod 1000) ++ "Z".
Proof.
  unfold toISOString. cbv zeta.
  repeat (rewrite replace_append;
          first [rewrite replace_year_text | rewrite replace_pad | idtac]).
  reflexivity.
Qed.

Ltac two_digits :=
  change (10 ^ Z.of_nat 2) with 100; Z.div_mod_to_equations; lia.

Ltac three_digits :=
  change (10 ^ Z.of_nat 3) with 1000; Z.div_mod_to_equations; lia.

Ltac next_field H :=
  apply append_inj_length in H; [|rewrite !length_pad; reflexivity];
  let Hf := fresh "Hfield" in
  destruct H as [Hf H]; apply append_cancel_l in H.

Lemma stamp_inj t1 t2 :
  valid_time t1 -> valid_time t2 ->
  replace_colon_dot (toISOString t1) = replace_colon_dot (toISOString t2) ->
  t1 = t2.
Proof.
  intros V1 V2 H. rewrite !stamp_shape in H.
  pose proof (year_bounds t1 V1) as By1. pose proof (year_bounds t2 V2) as By2.
  pose proof (month_bounds (t1 / msPerDay)) as Bm1.
  pose proof (month_bounds (t2 / msPerDay)) as Bm2.
  pose proof (day_bounds (t1 / msPerDay)) as Bd1.
  pose proof (day_bounds (t2 / msPerDay)) as Bd2.
  pose proof (Z.mod_pos_bound t1 msPerDay eq_refl) as Bt1.
  pose proof (Z.mod_pos_bound t2 msPerDay eq_refl) as Bt2.
  pose proof (Z.div_mod t1 msPerDay) as E1. pose proof (Z.div_mod t2 msPerDay) as E2.
  set (tid1 := t1 mod msPerDay) in *. set (tid2 := t2 mod msPerDay) in *.
  set (c1 := civil_of_days (t1 / msPerDay)) in *.
  set (c2 := civil_of_days (t2 / msPerDay)) in *.
  apply year_text_inj in H; [|assumption|assumption].
  destruct H as [Hyear H]. apply append_cancel_l in H.
  next_field H. rename Hfield into Hmonth.
  next_field H. rename Hfield into Hday.
  next_field H. rename Hfield into Hh.
  next_field H. rename Hfield into Hmi.
  next_field H. rename Hfield into Hs.
  apply append_inj_length in H; [|rewrite !length_pad; reflexivity].
  destruct H as [Hms _].
  unfold msPerDay in *.
  apply (pad_inj 2) in Hmonth; [|two_digits|two_digits].
  apply (pad_inj 2) in Hday; [|two_digits|two_digits].
  apply (pad_inj 2) in Hh; [|two_digits|two_digits].
  apply (pad_inj 2) in Hmi; [|two_digits|two_digits].
  apply (pad_inj 2) in Hs; [|two_digits|two_digits].
  apply (pad_inj 3) in Hms; [|three_digits|three_digits].
  assert (Hc : c1 = c2).
  { destruct c1, c2; cbn [year month day] in *; congruence. }
  apply civil_of_days_inj in Hc.
  assert (Htid : tid1 = tid2).
  { clear - Hh Hmi Hs Hms Bt1 Bt2. Z.div_mod_to_equations. lia. }
  lia.
Qed.

Lemma append_cancel_r (a b s : string) : a ++ s = b ++ s -> a = b.
Proof.
  intros H.
  assert (Hlen : String.length a = String.length b).
  { apply (f_equal String.length) in H. rewrite !length_append in H. lia. }
  apply (append_inj_length _ _ _ _ Hlen H).
Qed.

(** The name of a backup determines the millisecond at which it was taken. *)
Lemma backupFileAt_inj t1 t2 :
  valid_time t1 -> valid_time t2 -> backupFileAt t1 = backupFileAt t2 -> t1 = t2.
Proof.
  intros V1 V2 H. unfold backupFileAt in H. cbv zeta in H.
  apply append_cancel_l in H. apply append_cancel_r in H.
  apply stamp_inj; assumption.
Qed.

End StampFacts.

(** ** Backups *)

Lemma sdk_backup_name m w s f :
  fst (Sdk.backupWorkflows m w) = Normal (Sdk.WithFile s f) ->
  f = backupFileAt (now w).
Proof.
  unfold Sdk.backupWorkflows, Sdk.executeCommand, try_catch, bind, exec, ret,
    date_now, throw, console_error.
  cbn beta iota.
  repeat (first [next_reply | next_noise]); cbn [fst]; intros H;
    first [discriminate H | injection H as _ <-; reflexivity].
Qed.

Lemma stdio_backup_name m w evs :
  log (snd (Stdio.backupWorkflows m w)) = (log w ++ evs)%list ->
  some_failed evs = false ->
  fst (Stdio.backupWorkflows m w)
  = Normal ("Backup created: " ++ backupFileAt (now w)).
Proof.
  unfold Stdio.backupWorkflows, Stdio.executeCommand, try_catch, bind, exec, ret,
    date_now.
  cbn beta iota.
  repeat next_reply; cbn [fst snd log emit advance]; intros Hlog Hok;
    unfold push in Hlog; rewrite <- ?app_assoc in Hlog;
    apply app_inv_head in Hlog; subst evs;
    first [discriminate Hok | reflexivity].
Qed.

(** C6, as the code has it.  The name of a backup is fixed by the clock
    reading at the start of the invocation: it is [n8n-backup-], the UTC
    time stamp of that millisecond with [-] for [:] and [.], and [.json].
    Both servers return this name, [index.js] in the [file] member and the
    stdio server after [Backup created: ].  Two valid clock readings give
    the same name exactly when they are the same millisecond. *)
Theorem backup_name_is_the_millisecond_stamp :
  (forall m w s f,
      fst (Sdk.backupWorkflows m w) = Normal (Sdk.WithFile s f) ->
      f = backupFileAt (now w))
  /\ (forall m w evs,
        log (snd (Stdio.backupWorkflows m w)) = (log w ++ evs)%list ->
        some_failed evs = false ->
        fst (Stdio.backupWorkflows m w)
        = Normal ("Backup created: " ++ backupFileAt (now w)))
  /\ (forall t1 t2,
        JsDate.valid_time t1 -> JsDate.valid_time t2 ->
        (backupFileAt t1 = backupFileAt t2 <-> t1 = t2)).
Proof.
  split; [exact sdk_backup_name|]. split; [exact stdio_backup_name|].
  intros t1 t2 V1 V2. split.
  - apply StampFacts.backupFileAt_inj; assumption.
  - intros ->. reflexivity.
Qed.

Lemma backup_name_witness :
  let w := Hosts.boot (Hosts.printing "done") 1700000000000 in
  fst (Sdk.backupWorkflows Hosts.manager w)
  = Normal (Sdk.WithFile true "n8n-backup-2023-11-14T22-13-20-000Z.json")
  /\ "n8n-backup-2023-11-14T22-13-20-000Z.json" = backupFileAt (now w)
  /\ (backupFileAt 1700000000000 = backupFileAt 1700000000001
      <-> 1700000000000%Z = 1700000000001%Z).
Proof.
  intros w.
  assert (Hrun : fst (Sdk.backupWorkflows Hosts.manager w)
                 = Normal (Sdk.WithFile true "n8n-backup-2023-11-14T22-13-20-000Z.json"))
    by reflexivity.
  split; [exact Hrun|]. split.
  - exact (proj1 backup_name_is_the_millisecond_stamp Hosts.manager w true _ Hrun).
  - apply (proj2 (proj2 backup_name_is_the_millisecond_stamp));
      unfold JsDate.valid_time, JsDate.maxTime; lia.
Defined.

(** C6 fails for two invocations that read the clock in the same
    millisecond, as two requests that are in flight together do: both
    succeed and both return the same file name, in either server. *)
Lemma backup_names_collide_counterexample :
  let w1 := Hosts.boot (Hosts.printing "done") 1700000000000 in
  let w2 := emit (Stdout "another request is in flight") w1 in
  log w1 <> log w2
  /\ now w1 = now w2
  /\ fst (Sdk.backupWorkflows Hosts.manager w1)
     = Normal (Sdk.WithFile true "n8n-backup-2023-11-14T22-13-20-000Z.json")
  /\ fst (Sdk.backupWorkflows Hosts.manager w2)
     = Normal (Sdk.WithFile true "n8n-backup-2023-11-14T22-13-20-000Z.json")
  /\ fst (Stdio.backupWorkflows Hosts.manager w1)
     = Normal "Backup created: n8n-backup-2023-11-14T22-13-20-000Z.json"
  /\ fst (Stdio.backupWorkflows Hosts.manager w2)
     = Normal "Backup created: n8n-backup-2023-11-14T22-13-20-000Z.json".
Proof.
  intros w1 w2. split; [discriminate|]. repeat split.
Qed.

(** * Further properties of the code *)

(** ** Texts: prefixes, occurrences, white space *)

Lemma prefix_iff (p s : string) : prefix p s = true <-> exists b, s = p ++ b.
Proof.
  revert s. induction p as [|c p IH]; intros s.
  - split; [intros _; exists s; reflexivity | intros _; destruct s; reflexivity].
  - destruct s as [|d s]; simpl.
    + split; [discriminate | intros [b H]; discriminate H].
    + destruct (ascii_dec c d) as [->|Hcd].
      * rewrite IH. split; intros [b H]; exists b; [rewrite H; reflexivity|].
        injection H as H. exact H.
      * split; [discriminate|]. intros [b H]. injection H as H _. congruence.
Qed.

(** [includes] finds an occurrence exactly when there is one. *)
Lemma includes_iff (needle hay : string) :
  JsString.includes needle hay = true <-> exists a b, hay = a ++ needle ++ b.
Proof.
  induction hay as [|c hay IH].
  - cbn [JsString.includes]. rewrite orb_false_r, prefix_iff. split.
    + intros [b H]. exists EmptyString, b. exact H.
    + intros [a [b H]]. destruct a as [|x a]; [|discriminate H].
      exists b. exact H.
  - cbn [JsString.includes]. rewrite orb_true_iff, IH, prefix_iff. split.
    + intros [[b H]|[a [b H]]].
      * exists EmptyString, b. exact H.
      * exists (String c a), b. rewrite H. reflexivity.
    + intros [a [b H]]. destruct a as [|x a].
      * left. exists b. exact H.
      * right. injection H as _ H. exists a, b. exact H.
Qed.

Lemma all_ws_append a b : all_ws (a ++ b) = (all_ws a && all_ws b)%bool.
Proof.
  induction a as [|c a IH]; simpl; [reflexivity|].
  rewrite IH, andb_assoc. reflexivity.
Qed.

Lemma trimStart_skips w s : all_ws w = true -> JsString.trimStart (w ++ s) = JsString.trimStart s.
Proof.
  induction w as [|c w IH]; simpl; [reflexivity|].
  intros H. apply andb_prop in H as [Hc Hw]. rewrite Hc. auto.
Qed.

Lemma trimEnd_all_ws w : all_ws w = true -> JsString.trimEnd w = "".
Proof.
  induction w as [|c w IH]; simpl; [reflexivity|].
  intros H. apply andb_prop in H as [Hc Hw]. rewrite (IH Hw), Hc. reflexivity.
Qed.

Lemma trimEnd_skips s w : all_ws w = true -> JsString.trimEnd (s ++ w) = JsString.trimEnd s.
Proof.
  intros Hw. induction s as [|c s IH]; simpl.
  - apply trimEnd_all_ws. exact Hw.
  - rewrite IH. reflexivity.
Qed.

Lemma trimStart_append s t :
  all_ws s = false -> JsString.trimStart (s ++ t) = JsString.trimStart s ++ t.
Proof.
  induction s as [|c s IH]; simpl; [discriminate|].
  destruct (JsString.is_ws c); simpl; [exact IH | reflexivity].
Qed.

Lemma trim_skips lead s trail :
  all_ws lead = true -> all_ws trail = true ->
  JsString.trim (lead ++ s ++ trail) = JsString.trim s.
Proof.
  intros Hl Ht. unfold JsString.trim. rewrite trimStart_skips by exact Hl.
  destruct (all_ws s) eqn:Hs.
  - rewrite (trimStart_all_ws s Hs).
    rewrite trimStart_all_ws; [reflexivity|].
    rewrite all_ws_append, Hs, Ht. reflexivity.
  - rewrite trimStart_append by exact Hs. apply trimEnd_skips. exact Ht.
Qed.

(** ** Splitting a line into its columns *)

Lemma append_assoc (a b c : string) : (a ++ b) ++ c = a ++ b ++ c.
Proof. induction a as [|x a IH]; simpl; [reflexivity|]. rewrite IH. reflexivity. Qed.

Lemma append_empty_r (a : string) : a ++ "" = a.
Proof. induction a as [|x a IH]; simpl; [reflexivity|]. rewrite IH. reflexivity. Qed.

Lemma scan_Field_step cur c r :
  JsString.split_gaps_from JsString.Field cur (String c r)
  = if JsString.is_ws c
    then JsString.split_gaps_from (JsString.Pending c) cur r
    else JsString.split_gaps_from JsString.Field (cur ++ String c EmptyString) r.
Proof. reflexivity. Qed.

Lemma scan_Pending_step p cur c r :
  JsString.split_gaps_from (JsString.Pending p) cur (String c r)
  = if JsString.is_ws c
    then cur :: JsString.split_gaps_from JsString.Gap EmptyString r
    else JsString.split_gaps_from JsString.Field
           (cur ++ String p (String c EmptyString)) r.
Proof. reflexivity. Qed.

(** Reading a column, from the state [Field] or just after one white-space
    character, adds the whole column to the piece under construction. *)
Lemma scan_column f :
  ends_solid f = true -> no_gap_inside f = true ->
  (forall cur rest,
      JsString.split_gaps_from JsString.Field cur (f ++ rest)
      = JsString.split_gaps_from JsString.Field (cur ++ f) rest)
  /\ (forall p cur rest,
        starts_solid f = true ->
        JsString.split_gaps_from (JsString.Pending p) cur (f ++ rest)
        = JsString.split_gaps_from JsString.Field (cur ++ String p f) rest).
Proof.
  induction f as [|c f IH]; [discriminate|].
  intros Hend Hgap.
  destruct f as [|d f'].
  - (* the last character of the column *)
    simpl in Hend. apply negb_true_iff in Hend.
    split; intros; simpl; rewrite Hend; rewrite ?append_assoc; reflexivity.
  - assert (Hend' : ends_solid (String d f') = true) by exact Hend.
    assert (Hgap' : no_gap_inside (String d f') = true).
    { simpl in Hgap. apply andb_prop in Hgap as [_ H]. exact H. }
    destruct (IH Hend' Hgap') as [IHf IHp].
    split.
    + intros cur rest.
      change (String c (String d f') ++ rest) with (String c (String d f' ++ rest)).
      rewrite scan_Field_step.
      destruct (JsString.is_ws c) eqn:Hc.
      * assert (Hd : starts_solid (String d f') = true).
        { simpl in Hgap |- *. rewrite Hc in Hgap. simpl in Hgap.
          apply andb_prop in Hgap as [H _]. exact H. }
        rewrite (IHp c cur rest Hd). reflexivity.
      * rewrite IHf, append_assoc. reflexivity.
    + intros p cur rest Hs. simpl in Hs. apply negb_true_iff in Hs.
      change (String c (String d f') ++ rest) with (String c (String d f' ++ rest)).
      rewrite scan_Pending_step, Hs.
      rewrite IHf, append_assoc. reflexivity.
Qed.

Lemma scan_gap_rest g t :
  all_ws g = true ->
  JsString.split_gaps_from JsString.Gap "" (g ++ t)
  = JsString.split_gaps_from JsString.Gap "" t.
Proof.
  induction g as [|c g IH]; simpl; [reflexivity|].
  intros H. apply andb_prop in H as [Hc Hg]. rewrite Hc. auto.
Qed.

(** A gap closes the piece under construction. *)
Lemma scan_gap g cur t :
  is_gap g = true ->
  JsString.split_gaps_from JsString.Field cur (g ++ t)
  = cur :: JsString.split_gaps_from JsString.Gap "" t.
Proof.
  unfold is_gap. intros H. apply andb_prop in H as [Hws Hlen].
  destruct g as [|a [|b g]]; try discriminate Hlen.
  simpl in Hws. apply andb_prop in Hws as [Ha Hws].
  apply andb_prop in Hws as [Hb Hws].
  simpl. rewrite Ha, Hb. rewrite (scan_gap_rest g t Hws). reflexivity.
Qed.

Lemma scan_after_gap t :
  starts_solid t = true ->
  JsString.split_gaps_from JsString.Gap "" t
  = JsString.split_gaps_from JsString.Field "" t.
Proof.
  destruct t as [|c t]; [discriminate|]. simpl. intros H.
  apply negb_true_iff in H. rewrite H. reflexivity.
Qed.

Lemma is_column_parts c :
  is_column c = true ->
  starts_solid c = true /\ ends_solid c = true /\ no_gap_inside c = true.
Proof.
  unfold is_column. intros H. apply andb_prop in H as [H H3].
  apply andb_prop in H as [H1 H2]. auto.
Qed.

Lemma starts_solid_append a b : starts_solid a = true -> starts_solid (a ++ b) = true.
Proof. destruct a; [discriminate|]. simpl. auto. Qed.

Lemma starts_solid_spaced first more :
  is_column first = true -> starts_solid (spaced first more) = true.
Proof.
  intros H. apply is_column_parts in H as [H _].
  destruct more as [|[g c] r]; simpl; [exact H|].
  apply starts_solid_append. exact H.
Qed.

Lemma split_spaced_from first more :
  is_column first = true ->
  Forall (fun gc => is_gap (fst gc) = true /\ is_column (snd gc) = true) more ->
  JsString.split_gaps_from JsString.Field "" (spaced first more)
  = first :: map snd more.
Proof.
  revert first. induction more as [|[g c] r IH]; intros first Hf Hmore.
  - simpl. apply is_column_parts in Hf as [_ [He Hg]].
    destruct (scan_column first He Hg) as [Hs _].
    rewrite <- (append_empty_r first) at 1. rewrite Hs. reflexivity.
  - inversion Hmore as [|x l [Hgap Hcol] Hrest]; subst. simpl in Hgap, Hcol.
    cbn [spaced map snd].
    pose proof (is_column_parts _ Hf) as [_ [He Hg]].
    destruct (scan_column first He Hg) as [Hs _].
    rewrite Hs. cbn [append]. rewrite (scan_gap g first _ Hgap).
    rewrite scan_after_gap by (apply starts_solid_spaced; exact Hcol).
    rewrite (IH c Hcol Hrest). reflexivity.
Qed.

Lemma trimStart_solid s : starts_solid s = true -> JsString.trimStart s = s.
Proof.
  destruct s as [|c s]; [discriminate|]. simpl. intros H.
  apply negb_true_iff in H. rewrite H. reflexivity.
Qed.

Lemma trimEnd_solid s : ends_solid s = true -> JsString.trimEnd s = s.
Proof.
  induction s as [|c s IH]; [discriminate|].
  destruct s as [|d s'].
  - simpl. intros H. apply negb_true_iff in H. rewrite H. reflexivity.
  - intros H. change (ends_solid (String d s') = true) in H.
    cbn [JsString.trimEnd] in *. rewrite (IH H). reflexivity.
Qed.

Lemma ends_solid_append a b :
  b <> EmptyString -> ends_solid (a ++ b) = ends_solid b.
Proof.
  intros Hb. induction a as [|c a IH]; [reflexivity|].
  cbn [append ends_solid]. destruct (a ++ b) eqn:E; [|exact IH].
  destruct a; [simpl in E; contradiction|discriminate E].
Qed.

Lemma spaced_nonempty first more : is_column first = true -> spaced first more <> EmptyString.
Proof.
  intros H. pose proof (starts_solid_spaced first more H) as Hs.
  destruct (spaced first more); [discriminate Hs | discriminate].
Qed.

Lemma ends_solid_spaced first more :
  is_column first = true ->
  Forall (fun gc => is_gap (fst gc) = true /\ is_column (snd gc) = true) more ->
  ends_solid (spaced first more) = true.
Proof.
  revert first. induction more as [|[g c] r IH]; intros first Hf Hmore.
  - simpl. apply is_column_parts in Hf as [_ [He _]]. exact He.
  - inversion Hmore as [|x l [Hgap Hcol] Hrest]; subst. simpl in Hcol.
    cbn [spaced]. rewrite <- append_assoc.
    rewrite ends_solid_append by (apply spaced_nonempty; exact Hcol).
    apply IH; assumption.
Qed.

(** X1. The parser of [index.js] returns the columns of a well-formed line. *)
Theorem parseLine_reads_the_columns
        (first : string) (more : list (string * string))
        (Hfirst : is_column first = true)
        (Hmore : Forall (fun gc => is_gap (fst gc) = true
                                   /\ is_column (snd gc) = true) more) :
  JsString.split_gaps (JsString.trim (spaced first more)) = first :: map snd more
  /\ Sdk.parseLine (spaced first more)
     = {| Sdk.id := Some first;
          Sdk.name := nth_error (map snd more) 0;
          Sdk.active := Sdk.is_Active (nth_error (map snd more) 1) |}.
Proof.
  assert (E : JsString.split_gaps (JsString.trim (spaced first more))
              = first :: map snd more).
  { unfold JsString.trim.
    rewrite trimStart_solid by (apply starts_solid_spaced; exact Hfirst).
    rewrite trimEnd_solid by (apply ends_solid_spaced; assumption).
    apply split_spaced_from; assumption. }
  split; [exact E|]. unfold Sdk.parseLine. cbv zeta. rewrite E. reflexivity.
Qed.

Lemma parseLine_reads_the_columns_witness :
  Sdk.parseLine "wf-17   Nightly sync of orders  Active"
  = {| Sdk.id := Some "wf-17"; Sdk.name := Some "Nightly sync of orders";
       Sdk.active := true |}.
Proof.
  apply (parseLine_reads_the_columns "wf-17"
           [("   ", "Nightly sync of orders"); ("  ", "Active")]).
  - reflexivity.
  - repeat constructor.
Defined.

(** X2. White space around a line does not matter. *)
Theorem parseLine_ignores_surrounding_space
        (lead line trail : string)
        (Hlead : all_ws lead = true) (Htrail : all_ws trail = true) :
  Sdk.parseLine (lead ++ line ++ trail) = Sdk.parseLine line.
Proof.
  unfold Sdk.parseLine. rewrite (trim_skips lead line trail Hlead Htrail).
  reflexivity.
Qed.

Lemma parseLine_ignores_surrounding_space_witness :
  Sdk.parseLine (" " ++ "id1  WorkflowA  Active" ++ String (ascii_of_nat 13) EmptyString)
  = Sdk.parseLine "id1  WorkflowA  Active".
Proof.
  apply (parseLine_ignores_surrounding_space " " "id1  WorkflowA  Active"
           (String (ascii_of_nat 13) EmptyString)); reflexivity.
Defined.

Lemma length_split_on sep s :
  length (JsString.split_on sep s) = S (count_char sep s).
Proof.
  induction s as [|c s IH]; simpl; [reflexivity|].
  destruct (Ascii.eqb c sep); simpl.
  - rewrite IH. reflexivity.
  - destruct (JsString.split_on sep s); simpl in *; [discriminate IH | exact IH].
Qed.

(** X3. One summary per line of the trimmed output. *)
Theorem parseListing_one_summary_per_line (out : string) :
  length (Sdk.parseListing out) = S (count_char JsString.LF (JsString.trim out)).
Proof.
  unfold Sdk.parseListing. rewrite length_map. apply length_split_on.
Qed.

(** ** Running a command in [index.js] *)

(** X4. Standard error never turns a command that exited with status 0
    into a failure; it is copied to the console unless it is empty or
    contains the word WARNING somewhere. *)
Theorem sdk_executeCommand_reports_stderr
        (command out err : string) (w : World)
        (H : respond (host w) (log w) command = Exited out err) :
  fst (Sdk.executeCommand command w) = Normal out
  /\ exists extra,
       log (snd (Sdk.executeCommand command w))
       = (log w ++ Exec command (Exited out err) :: extra)%list
       /\ (extra = [] \/ extra = [Stderr ("Command stderr: " ++ err)])
       /\ (extra = [] <-> err = "" \/ exists a b, err = a ++ "WARNING" ++ b).
Proof.
  unfold Sdk.executeCommand, try_catch, bind, exec, console_error, ret.
  cbn beta iota. rewrite H. cbn beta iota.
  destruct (String.eqb_spec err "") as [->|Hne]; cbn [negb andb].
  - split; [reflexivity|]. exists []. split; [reflexivity|].
    split; [left; reflexivity|]. split; [left; reflexivity | reflexivity].
  - destruct (JsString.includes "WARNING" err) eqn:Hinc; cbn [negb].
    + split; [reflexivity|]. exists []. split; [reflexivity|].
      split; [left; reflexivity|]. split; [|reflexivity].
      intros _. right. apply includes_iff. exact Hinc.
    + split; [reflexivity|]. exists [Stderr ("Command stderr: " ++ err)].
      split; [cbn [snd log emit advance]; unfold push;
              rewrite <- app_assoc; reflexivity|].
      split; [right; reflexivity|]. split; [discriminate|].
      intros [E|E]; [contradiction|].
      apply includes_iff in E. rewrite Hinc in E. discriminate E.
Qed.

Lemma sdk_executeCommand_reports_stderr_witness :
  let w := Hosts.boot (chatty_host "done" "WARNING: no swap limit support") 0 in
  respond (host w) (log w) "docker restart n8n-container"
  = Exited "done" "WARNING: no swap limit support"
  /\ fst (Sdk.executeCommand "docker restart n8n-container" w) = Normal "done".
Proof.
  intros w. split; [reflexivity|].
  apply (sdk_executeCommand_reports_stderr "docker restart n8n-container"
           "done" "WARNING: no swap limit support" w).
  reflexivity.
Defined.

(** ** How the operations of [index.js] fail *)

Ltac next_reply_quietly :=
  match goal with
  | |- context [respond ?h ?l ?c] =>
      lazymatch l with
      | context [respond _ _ _] => fail
      | _ => let E := fresh "Ereply" in
             destruct (respond h l c) as [? ?|?] eqn:E; cbn beta iota
      end
  end.

Ltac next_noise_quietly :=
  match goal with
  | |- context [(negb (String.eqb ?e EmptyString) && ?b)%bool] =>
      destruct (negb (String.eqb e EmptyString) && b)%bool; cbn beta iota
  end.

Ltac failure_shown :=
  eexists;
  split; [ cbn [snd log emit advance]; unfold push; rewrite <- ?app_assoc;
           simpl; first [ reflexivity | symmetry; apply app_nil_r ] | ];
  cbn [fst];
  first [ reflexivity
        | split; [ reflexivity | apply prefix_iff; eexists; reflexivity ] ].

Ltac run_sdk :=
  unfold fails_with, Sdk.listWorkflows, Sdk.updateWorkflow, Sdk.restartContainer,
    Sdk.backupWorkflows, Sdk.executeCommand, try_catch, bind, exec, sleep,
    date_now, ret, throw, console_error;
  intros w; cbn beta iota;
  repeat (first [next_reply_quietly | next_noise_quietly]).

(** X5. List, update, restart and backup throw exactly when one of their
    commands has failed, each with the prefix that names its action;
    troubleshoot throws only when a command has failed. *)
Theorem sdk_operations_fail_with_their_prefix :
  (forall m, fails_with "Failed to list workflows: " (Sdk.listWorkflows m))
  /\ (forall m id data,
        fails_with "Failed to update workflow: " (Sdk.updateWorkflow m id data))
  /\ (forall m, fails_with "Failed to restart container: " (Sdk.restartContainer m))
  /\ (forall m, fails_with "Failed to create backup: " (Sdk.backupWorkflows m))
  /\ (forall m id w e w',
        Sdk.troubleshoot m id w = (Throw e, w') ->
        prefix "Failed to troubleshoot: Command failed: " (message e) = true).
Proof.
  split; [|split; [|split; [|split]]].
  - intros m. run_sdk; failure_shown.
  - intros m id data. run_sdk; failure_shown.
  - intros m. run_sdk; failure_shown.
  - intros m. run_sdk; failure_shown.
  - intros m id w e w'.
    unfold Sdk.troubleshoot, Sdk.executeCommand, template, try_catch, bind, exec,
      ret, throw, console_error.
    destruct (Js.toString id); cbn beta iota.
    all: repeat (first [next_reply_quietly | next_noise_quietly]).
    all: intros H; first [ discriminate H | injection H as <- _ ].
    all: apply prefix_iff; eexists; reflexivity.
Qed.

(** ** Restart and backup: the failure paths *)

(** X6. When the restart command fails neither server waits; each reports
    the failure at once. *)
Theorem restart_failure_is_reported_without_waiting
        (m : N8nWorkflowManager) (w : World) (msg : string)
        (H : respond (host w) (log w) (Sdk.restartCommand m) = Failed msg) :
  let completed :=
    (now w + Z.of_N (elapsed (host w) (log w) (Sdk.restartCommand m)))%Z in
  (fst (Sdk.restartContainer m w)
   = Throw {| message := "Failed to restart container: Command failed: " ++ msg |}
   /\ now (snd (Sdk.restartContainer m w)) = completed
   /\ log (snd (Sdk.restartContainer m w))
      = (log w ++ [Exec (Sdk.restartCommand m) (Failed msg)])%list)
  /\
  (fst (Stdio.restartContainer m w) = Normal ("Error restarting container: " ++ msg)
   /\ now (snd (Stdio.restartContainer m w)) = completed
   /\ log (snd (Stdio.restartContainer m w))
      = (log w ++ [Exec (Stdio.restartCommand m) (Failed msg)])%list).
Proof.
  intros completed. subst completed. split.
  - unfold Sdk.restartContainer, Sdk.executeCommand, try_catch, bind, exec, sleep,
      ret, throw, console_error.
    cbn beta iota. rewrite H. cbn beta iota.
    split; [reflexivity|]. split; reflexivity.
  - unfold Stdio.restartContainer, Stdio.executeCommand, try_catch, bind, exec,
      sleep, ret.
    change (Stdio.restartCommand m) with (Sdk.restartCommand m).
    cbn beta iota. rewrite H. cbn beta iota.
    split; [reflexivity|]. split; reflexivity.
Qed.

Lemma restart_failure_witness :
  let w := Hosts.boot (Hosts.failing_on "restart" "No such container") 1700000000000 in
  respond (host w) (log w) (Sdk.restartCommand Hosts.manager) = Failed "No such container"
  /\ now (snd (Sdk.restartContainer Hosts.manager w)) = (1700000000000 + 120)%Z
  /\ fst (Stdio.restartContainer Hosts.manager w)
     = Normal "Error restarting container: No such container".
Proof.
  intros w. split; [reflexivity|].
  pose proof (restart_failure_is_reported_without_waiting Hosts.manager w
                "No such container" eq_refl) as [[_ [Hnow _]] [Hstdio _]].
  split; [exact Hnow | exact Hstdio].
Defined.

Ltac backup_prefix k :=
  exists k;
  split; [ cbn [snd log emit advance]; unfold push; rewrite <- ?app_assoc;
           simpl; reflexivity | ];
  split; [ reflexivity | ];
  split; [ reflexivity | ];
  cbn [fst]; split; [ intros Hr; first [ discriminate Hr | split; reflexivity ]
                    | intros [Hk Hf]; first [ discriminate Hk | discriminate Hf
                                            | reflexivity ] ].

(** X7. A backup exports, then copies out the file it has just exported,
    and skips the copy when the export has failed. *)
Theorem backup_exports_then_copies_the_same_file :
  (forall m w,
      let file := backupFileAt (now w) in
      exists evs k,
        log (snd (Sdk.backupWorkflows m w)) = (log w ++ evs)%list
        /\ commands evs
           = firstn k [Sdk.exportAllCommand m file; Sdk.copyOutCommand m file]
        /\ some_failed (removelast evs) = false
        /\ (fst (Sdk.backupWorkflows m w) = Normal (Sdk.WithFile true file)
            <-> k = 2%nat /\ some_failed evs = false))
  /\
  (forall m w,
      let file := backupFileAt (now w) in
      exists evs k,
        log (snd (Stdio.backupWorkflows m w)) = (log w ++ evs)%list
        /\ commands evs
           = firstn k [Stdio.exportAllCommand m file; Stdio.copyOutCommand m file]
        /\ some_failed (removelast evs) = false
        /\ (fst (Stdio.backupWorkflows m w) = Normal ("Backup created: " ++ file)
            <-> k = 2%nat /\ some_failed evs = false)).
Proof.
  split; intros m w file; subst file.
  - unfold Sdk.backupWorkflows, Sdk.executeCommand, try_catch, bind, exec, ret,
      date_now, throw, console_error.
    cbn beta iota.
    repeat (first [next_reply_quietly | next_noise_quietly]); eexists;
      first [ backup_prefix 1%nat | backup_prefix 2%nat ].
  - unfold Stdio.backupWorkflows, Stdio.executeCommand, try_catch, bind, exec, ret,
      date_now.
    cbn beta iota.
    repeat next_reply_quietly; eexists;
      first [ backup_prefix 1%nat | backup_prefix 2%nat ].
Qed.

(** ** File names *)

Lemma all_chars_append p a b :
  all_chars p (a ++ b) = (all_chars p a && all_chars p b)%bool.
Proof.
  induction a as [|c a IH]; simpl; [reflexivity|].
  rewrite IH, andb_assoc. reflexivity.
Qed.

Lemma count_char_append c a b :
  count_char c (a ++ b) = (count_char c a + count_char c b)%nat.
Proof.
  induction a as [|x a IH]; simpl; [reflexivity|]. rewrite IH. lia.
Qed.

Lemma digit_is_name_char n : is_name_char (JsDate.digit n) = true.
Proof.
  unfold is_name_char. rewrite DigitFacts.digit_code.
  pose proof (Z.mod_pos_bound n 10 eq_refl) as B.
  cbv zeta.
  replace ((48 <=? 48 + Z.to_N (n mod 10))%N) with true
    by (symmetry; apply N.leb_le; lia).
  replace ((48 + Z.to_N (n mod 10) <=? 57)%N) with true
    by (symmetry; apply N.leb_le; lia).
  reflexivity.
Qed.

Lemma digit_is_not_dot n : Ascii.eqb (JsDate.digit n) "." = false.
Proof.
  apply Ascii.eqb_neq. apply DigitFacts.digit_is_not. left. reflexivity.
Qed.

Lemma pad_is_name w n :
  all_chars is_name_char (JsDate.pad w n) = true
  /\ count_char "." (JsDate.pad w n) = 0%nat.
Proof.
  revert n. induction w as [|w IH]; intros n; simpl; [split; reflexivity|].
  destruct (IH (n / 10)%Z) as [Ha Hc].
  rewrite all_chars_append, count_char_append, Ha, Hc. simpl.
  rewrite digit_is_name_char, digit_is_not_dot. split; reflexivity.
Qed.

Lemma year_text_is_name y :
  all_chars is_name_char (JsDate.year_text y) = true
  /\ count_char "." (JsDate.year_text y) = 0%nat.
Proof.
  unfold JsDate.year_text.
  destruct ((0 <=? y)%Z && (y <=? 9999)%Z)%bool; [apply pad_is_name|].
  destruct (pad_is_name 6 (Z.abs y)) as [Ha Hc].
  rewrite all_chars_append, count_char_append, Ha, Hc.
  destruct (y <? 0)%Z; split; reflexivity.
Qed.

(** X8. Whatever the clock says, the name of a backup is made of letters,
    digits, [-], [+] and one [.], the one of its extension. *)
Theorem backup_name_is_a_plain_file_name (t : Z) :
  all_chars is_name_char (backupFileAt t) = true
  /\ count_char "." (backupFileAt t) = 1%nat
  /\ count_char ":" (backupFileAt t) = 0%nat
  /\ all_chars (fun c => negb (JsString.is_ws c)) (backupFileAt t) = true.
Proof.
  assert (Hname : all_chars is_name_char (backupFileAt t) = true
                  /\ count_char "." (backupFileAt t) = 1%nat).
  { unfold backupFileAt. cbv zeta. rewrite StampFacts.stamp_shape.
    destruct (year_text_is_name
                (JsDate.year (JsDate.civil_of_days (t / JsDate.msPerDay))))
      as [Hy Hyc].
    repeat rewrite ?all_chars_append, ?count_char_append.
    rewrite Hy, Hyc.
    repeat match goal with
      | |- context [all_chars is_name_char (JsDate.pad ?w ?n)] =>
          rewrite (proj1 (pad_is_name w n))
      | |- context [count_char "." (JsDate.pad ?w ?n)] =>
          rewrite (proj2 (pad_is_name w n))
      end.
    split; reflexivity. }
  destruct Hname as [Hall Hdot]. split; [exact Hall|]. split; [exact Hdot|].
  assert (Himp : forall s, all_chars is_name_char s = true ->
                  count_char ":" s = 0%nat
                  /\ all_chars (fun c => negb (JsString.is_ws c)) s = true).
  { induction s as [|c s IH]; simpl; [split; reflexivity|].
    intros H. apply andb_prop in H as [Hc Hs]. destruct (IH Hs) as [H1 H2].
    rewrite H1, H2.
    assert (Hcases : Ascii.eqb c ":" = false /\ JsString.is_ws c = false).
    { unfold is_name_char, JsString.is_ws in *. cbv zeta in *.
      split.
      - apply Ascii.eqb_neq. intros ->. discriminate Hc.
      - set (n := N_of_ascii c) in *.
        repeat rewrite ?orb_true_iff, ?andb_true_iff, ?N.leb_le, ?N.eqb_eq in Hc.
        repeat rewrite ?orb_false_iff, ?andb_false_iff, ?N.leb_gt, ?N.eqb_neq.
        lia. }
    destruct Hcases as [-> ->]. split; reflexivity. }
  apply Himp. exact Hall.
Qed.

Lemma Z_to_string_inj a b : Z_to_string a = Z_to_string b -> a = b.
Proof.
  unfold Z_to_string. intros H.
  apply (f_equal NilEmpty.int_of_string) in H. rewrite !NilEmpty.isi in H.
  injection H as H. apply (f_equal Z.of_int) in H.
  rewrite !DecimalZ.of_to in H. exact H.
Qed.

(** X9. The temporary file of an update is named after the clock alone. *)
Theorem update_temp_file_names_the_millisecond (t1 t2 : Z) :
  Sdk.tmpFileAt t1 = Sdk.tmpFileAt t2 <-> t1 = t2.
Proof.
  split; [|intros ->; reflexivity].
  unfold Sdk.tmpFileAt. intros H.
  apply append_cancel_l in H. apply StampFacts.append_cancel_r in H.
  apply Z_to_string_inj. exact H.
Qed.

Lemma quote_body_append a b :
  Json.quote_body (a ++ b) = Json.quote_body a ++ Json.quote_body b.
Proof.
  induction a as [|c a IH]; simpl; [reflexivity|].
  rewrite IH, append_assoc. reflexivity.
Qed.

(** X10. A single quote in the payload reaches the shell unescaped, inside
    the single quotes of the echo command. *)
Theorem echo_command_keeps_single_quotes (a b tmpFile : string) :
  Sdk.echoCommand (JStr (a ++ "'" ++ b)) tmpFile
  = "echo '" ++ Json.dquote ++ Json.quote_body a ++ "'" ++ Json.quote_body b
      ++ Json.dquote ++ "' > " ++ tmpFile.
Proof.
  unfold Sdk.echoCommand, Json.stringify, Json.serialize, Json.text_of, Json.quote.
  rewrite !quote_body_append. cbn [Json.quote_body].
  change (Json.quote_char "'") with "'".
  rewrite !append_assoc. reflexivity.
Qed.

(** ** The temporary file of an update in [index.js] *)

Ltac cases_of H :=
  cbn [In commands] in H;
  repeat match goal with
    | H' : _ \/ _ |- _ => destruct H' as [H'|H']
    | H' : False |- _ => destruct H'
    end.

(** X11. The temporary file is removed only at the end of a run in which
    echo, copy and import have all succeeded; when one of them fails the
    file is left behind. *)
Theorem update_leaves_the_temp_file_after_a_failure
        (m : N8nWorkflowManager) (id data : JsVal) (w w' : World)
        (r : Completion Sdk.Outcome) (evs : list Event) (c msg : string)
        (Hrun : Sdk.updateWorkflow m id data w = (r, w'))
        (Hlog : log w' = (log w ++ evs)%list)
        (Hfail : In (Exec c (Failed msg)) evs)
        (Hother : c <> Sdk.rmCommand (Sdk.tmpFileAt (now w))) :
  ~ In (Sdk.rmCommand (Sdk.tmpFileAt (now w))) (commands evs)
  /\ exists e, r = Throw e.
Proof.
  unfold Sdk.updateWorkflow, Sdk.executeCommand, try_catch, bind, exec, ret,
    date_now, throw, console_error in Hrun.
  simpl in Hrun.
  revert Hrun. repeat (first [next_reply | next_noise]); intros Hrun;
    new_events Hrun Hlog.
  all: cbn [In] in Hfail.
  all: repeat match goal with
         | H : _ \/ _ |- _ => destruct H as [H|H]
         | H : False |- _ => destruct H
         end.
  all: try discriminate Hfail.
  all: apply Exec_inj in Hfail; destruct Hfail as [Hc Hm]; subst c.
  all: try (exfalso; apply Hother; reflexivity).
  all: split; [|eexists; reflexivity].
  all: intros Hin; cases_of Hin; differ Hin.
Qed.

Lemma update_leaves_the_temp_file_witness :
  let w := Hosts.boot (Hosts.failing_on "import:workflow" "exit code 1") 1700000000000 in
  let run := Sdk.updateWorkflow Hosts.manager (JStr "7") (JArr []) w in
  In (Exec (Sdk.importCommand Hosts.manager) (Failed "exit code 1")) (log (snd run))
  /\ ~ In (Sdk.rmCommand (Sdk.tmpFileAt (now w))) (commands (log (snd run))).
Proof.
  intros w run. split.
  - vm_compute. tauto.
  - apply (update_leaves_the_temp_file_after_a_failure Hosts.manager (JStr "7")
             (JArr []) w (snd run) (fst run) (log (snd run))
             (Sdk.importCommand Hosts.manager) "exit code 1").
    + reflexivity.
    + reflexivity.
    + vm_compute. tauto.
    + vm_compute. discriminate.
Defined.

(** X12. When only the removal of the temporary file fails, the update
    reports a failure although the import has succeeded. *)
Theorem update_fails_when_only_the_cleanup_fails
        (m : N8nWorkflowManager) (id data : JsVal) (w w' : World)
        (r : Completion Sdk.Outcome) (evs : list Event) (msg : string)
        (Hrun : Sdk.updateWorkflow m id data w = (r, w'))
        (Hlog : log w' = (log w ++ evs)%list)
        (Hfail : In (Exec (Sdk.rmCommand (Sdk.tmpFileAt (now w))) (Failed msg)) evs) :
  r = Throw {| message := "Failed to update workflow: " ++ msg |}
  /\ exists out err, In (Exec (Sdk.importCommand m) (Exited out err)) evs.
Proof.
  unfold Sdk.updateWorkflow, Sdk.executeCommand, try_catch, bind, exec, ret,
    date_now, throw, console_error in Hrun.
  simpl in Hrun.
  revert Hrun. repeat (first [next_reply | next_noise]); intros Hrun;
    new_events Hrun Hlog.
  all: cbn [In] in Hfail.
  all: repeat match goal with
         | H : _ \/ _ |- _ => destruct H as [H|H]
         | H : False |- _ => destruct H
         end.
  all: try discriminate Hfail.
  all: try solve [exfalso; apply Exec_inj in Hfail; destruct Hfail as [Hc _];
                    differ Hc].
  all: apply Exec_inj in Hfail; destruct Hfail as [_ Hm]; injection Hm as <-.
  all: split; [reflexivity|]; do 2 eexists; cbn [In]; tauto.
Qed.

Lemma update_fails_when_only_the_cleanup_fails_witness :
  let w := Hosts.boot (Hosts.failing_on "rm " "Permission denied") 1700000000000 in
  let run := Sdk.updateWorkflow Hosts.manager (JStr "7") (JArr []) w in
  In (Exec (Sdk.rmCommand (Sdk.tmpFileAt (now w))) (Failed "Permission denied"))
     (log (snd run))
  /\ fst run = Throw {| message := "Failed to update workflow: Permission denied" |}.
Proof.
  intros w run. split.
  - vm_compute. tauto.
  - apply (update_fails_when_only_the_cleanup_fails Hosts.manager (JStr "7")
             (JArr []) w (snd run) (fst run) (log (snd run)) "Permission denied").
    + reflexivity.
    + reflexivity.
    + vm_compute. tauto.
Defined.

(** ** Troubleshooting in [index.js] *)

Ltac run_checks Hrun :=
  unfold Sdk.troubleshoot, Sdk.executeCommand, template, try_catch, bind, exec,
    ret, throw, console_error in Hrun;
  match type of Hrun with
  | context [Js.toString ?v] =>
      let E := fresh "Etext" in destruct (Js.toString v) eqn:E
  end;
  cbn beta iota in Hrun;
  revert Hrun; repeat (first [next_reply | next_noise]); intros Hrun.

Ltac as_last :=
  first [ exists []%list; reflexivity
        | eexists [_]%list; reflexivity
        | eexists [_; _]%list; reflexivity
        | eexists [_; _; _]%list; reflexivity
        | eexists [_; _; _; _]%list; reflexivity
        | eexists [_; _; _; _; _]%list; reflexivity ].

Ltac member_of := solve [cbn [In]; repeat first [left; reflexivity | right]].

(** X13. The diagnosis of [index.js] tolerates a failed search only: when
    the status command or the logs command fails, it throws with the
    message of that failure, and the failed command is the last thing it
    did. *)
Theorem sdk_troubleshoot_needs_status_and_logs
        (m : N8nWorkflowManager) (id : JsVal) (w w' : World)
        (r : Completion (list Sdk.Check)) (evs : list Event) (c msg : string)
        (Hrun : Sdk.troubleshoot m id w = (r, w'))
        (Hlog : log w' = (log w ++ evs)%list)
        (Hc : c = Sdk.statusCommand m \/ c = Sdk.logsCommand m)
        (Hfail : In (Exec c (Failed msg)) evs) :
  r = Throw {| message := "Failed to troubleshoot: Command failed: " ++ msg |}
  /\ exists before, evs = (before ++ [Exec c (Failed msg)])%list.
Proof.
  run_checks Hrun.
  all: new_events Hrun Hlog.
  all: split_cases_of Hfail.
  all: subst c.
  all: try solve [exfalso; other_check Hfail].
  all: apply Exec_inj in Hfail; destruct Hfail as [_ Hm]; injection Hm as ->.
  all: split; [reflexivity | as_last].
Qed.

Lemma sdk_troubleshoot_needs_status_and_logs_witness :
  let w := Hosts.boot (Hosts.failing_on "logs" "daemon not running") 1700000000000 in
  let run := Sdk.troubleshoot Hosts.manager (JStr "42") w in
  In (Exec (Sdk.logsCommand Hosts.manager) (Failed "daemon not running")) (log (snd run))
  /\ fst run
     = Throw {| message := "Failed to troubleshoot: Command failed: daemon not running" |}.
Proof.
  intros w run. split.
  - vm_compute. tauto.
  - apply (sdk_troubleshoot_needs_status_and_logs Hosts.manager (JStr "42") w
             (snd run) (fst run) (log (snd run)) (Sdk.logsCommand Hosts.manager)
             "daemon not running").
    + reflexivity.
    + reflexivity.
    + right. reflexivity.
    + vm_compute. tauto.
Defined.

(** X14. A diagnosis of [index.js] that returns has three entries, named
    Container Status, Workflow Status and Recent Logs in this order: the
    trimmed output of the status command, then the trimmed output of the
    search or the words [Workflow not found], then the output of the logs
    command as it is. *)
Theorem sdk_troubleshoot_gives_three_checks
        (m : N8nWorkflowManager) (id : JsVal) (w w' : World)
        (checks : list Sdk.Check)
        (Hrun : Sdk.troubleshoot m id w = (Normal checks, w')) :
  exists status e1 second logs e3 evs,
    log w' = (log w ++ evs)%list
    /\ checks = [ {| Sdk.check := "Container Status";
                     Sdk.result := JsString.trim status |};
                  {| Sdk.check := "Workflow Status"; Sdk.result := second |};
                  {| Sdk.check := "Recent Logs"; Sdk.result := logs |} ]
    /\ In (Exec (Sdk.statusCommand m) (Exited status e1)) evs
    /\ In (Exec (Sdk.logsCommand m) (Exited logs e3)) evs
    /\ commands evs = sdk_troubleshoot_plan m id
    /\ (second = "Workflow not found"
        \/ exists i found e2,
             Js.toString id = Some i
             /\ In (Exec (Sdk.searchCommand m i) (Exited found e2)) evs
             /\ second = JsString.trim found).
Proof.
  unfold sdk_troubleshoot_plan.
  run_checks Hrun.
  all: first [ discriminate Hrun | injection Hrun as <- <- ].
  all: do 6 eexists.
  all: split; [ cbn [snd log emit advance]; unfold push; rewrite <- ?app_assoc;
                simpl; reflexivity | ].
  all: split; [ reflexivity | ].
  all: split; [ member_of | ].
  all: split; [ member_of | ].
  all: split; [ reflexivity | ].
  all: first [ left; reflexivity
             | right; do 3 eexists; split; [reflexivity|];
               split; [ member_of | reflexivity ] ].
Qed.

Lemma sdk_troubleshoot_gives_three_checks_witness :
  let w := Hosts.boot (Hosts.printing "  Up 3 hours  ") 1700000000000 in
  let run := Sdk.troubleshoot Hosts.manager (JStr "42") w in
  fst run
  = Normal [ {| Sdk.check := "Container Status"; Sdk.result := "Up 3 hours" |};
             {| Sdk.check := "Workflow Status"; Sdk.result := "Up 3 hours" |};
             {| Sdk.check := "Recent Logs"; Sdk.result := "  Up 3 hours  " |} ]
  /\ commands (log (snd run)) = sdk_troubleshoot_plan Hosts.manager (JStr "42").
Proof.
  intros w run. split; [reflexivity|].
  destruct (sdk_troubleshoot_gives_three_checks Hosts.manager (JStr "42") w (snd run)
              [ {| Sdk.check := "Container Status"; Sdk.result := "Up 3 hours" |};
                {| Sdk.check := "Workflow Status"; Sdk.result := "Up 3 hours" |};
                {| Sdk.check := "Recent Logs"; Sdk.result := "  Up 3 hours  " |} ]
              eq_refl)
    as [status [e1 [second [logs [e3 [evs [Hlog [_ [_ [_ [Hplan _]]]]]]]]]]].
  rewrite Hlog. exact Hplan.
Defined.

(** ** Arguments the servers do not check *)

(** X15. A workflow id that has no text, because it is an object with a
    member [toString] of its own.  [index.js] builds the search command
    inside the handler of the search, which catches the TypeError: once
    the status command has succeeded it runs no search, goes on to the
    logs and, when these succeed, returns the three entries, the second
    one saying [Workflow not found].  The stdio server stops after the
    status command and answers with the message of the TypeError. *)
Theorem workflow_id_without_a_text
        (m : N8nWorkflowManager) (id : JsVal) (w : World)
        (Hid : Js.toString id = None) :
  (exists evs k,
     log (snd (Sdk.troubleshoot m id w)) = (log w ++ evs)%list
     /\ commands evs = firstn k [Sdk.statusCommand m; Sdk.logsCommand m]
     /\ (forall status e1,
           In (Exec (Sdk.statusCommand m) (Exited status e1)) evs -> k = 2%nat)
     /\ (forall status e1 logs e3,
           In (Exec (Sdk.statusCommand m) (Exited status e1)) evs ->
           In (Exec (Sdk.logsCommand m) (Exited logs e3)) evs ->
           fst (Sdk.troubleshoot m id w)
           = Normal [ {| Sdk.check := "Container Status";
                         Sdk.result := JsString.trim status |};
                      {| Sdk.check := "Workflow Status";
                         Sdk.result := "Workflow not found" |};
                      {| Sdk.check := "Recent Logs"; Sdk.result := logs |} ]))
  /\
  (exists evs,
     log (snd (Stdio.troubleshoot m id w)) = (log w ++ evs)%list
     /\ commands evs = [Stdio.statusCommand m]
     /\ (some_failed evs = false ->
         fst (Stdio.troubleshoot m id w)
         = Normal "Error during troubleshooting: Cannot convert object to primitive value")).
Proof.
  split.
  - unfold Sdk.troubleshoot, Sdk.executeCommand, template, try_catch, bind, exec,
      ret, throw, console_error.
    rewrite Hid. cbn beta iota.
    repeat (first [next_reply_quietly | next_noise_quietly]).
    all: eexists.
    all: first [ exists 2%nat;
                 split; [ cbn [snd log emit advance]; unfold push;
                          rewrite <- ?app_assoc; simpl; reflexivity | ];
                 split; [ reflexivity | ];
                 split; [ intros status e1 _; reflexivity | ]
               | exists 1%nat;
                 split; [ cbn [snd log emit advance]; unfold push;
                          rewrite <- ?app_assoc; simpl; reflexivity | ];
                 split; [ reflexivity | ];
                 split; [ intros status e1 Hin; exfalso; split_cases_of Hin;
                          other_check Hin | ] ].
    all: intros status e1 logs e3 Hs Hl; cbn [fst].
    all: split_cases_of Hs.
    all: try solve [exfalso; other_check Hs].
    all: split_cases_of Hl.
    all: try solve [exfalso; other_check Hl].
    all: apply Exec_inj in Hs; destruct Hs as [_ Hs]; injection Hs as <- <-.
    all: apply Exec_inj in Hl; destruct Hl as [_ Hl]; injection Hl as <- <-.
    all: reflexivity.
  - unfold Stdio.troubleshoot, Stdio.executeCommand, template, try_catch, bind,
      exec, ret, throw.
    rewrite Hid. cbn beta iota.
    repeat next_reply_quietly.
    all: eexists.
    all: split; [ cbn [snd log emit advance]; unfold push; rewrite <- ?app_assoc;
                  simpl; reflexivity | ].
    all: split; [ reflexivity | ].
    all: cbn [fst]; intros Hf; first [ discriminate Hf | reflexivity ].
Qed.

Lemma workflow_id_without_a_text_witness :
  let w := Hosts.boot (Hosts.printing " Up ") 1700000000000 in
  Js.toString opaqueId = None
  /\ (exists evs k,
        log (snd (Sdk.troubleshoot Hosts.manager opaqueId w)) = (log w ++ evs)%list
        /\ commands evs
           = firstn k [Sdk.statusCommand Hosts.manager; Sdk.logsCommand Hosts.manager]
        /\ (In (Exec (Sdk.statusCommand Hosts.manager) (Exited " Up " EmptyString)) evs
            -> k = 2%nat))
  /\ fst (Sdk.troubleshoot Hosts.manager opaqueId w)
     = Normal [ {| Sdk.check := "Container Status"; Sdk.result := "Up" |};
                {| Sdk.check := "Workflow Status";
                   Sdk.result := "Workflow not found" |};
                {| Sdk.check := "Recent Logs"; Sdk.result := " Up " |} ]
  /\ exists evs,
       log (snd (Stdio.troubleshoot Hosts.manager opaqueId w)) = (log w ++ evs)%list
       /\ commands evs = [Stdio.statusCommand Hosts.manager].
Proof.
  intros w. split; [reflexivity|].
  destruct (workflow_id_without_a_text Hosts.manager opaqueId w eq_refl)
    as [[evs [k [Hlog [Hc [Hk Hr]]]]] [evs' [Hlog' [Hc' _]]]].
  assert (E : evs = log (snd (Sdk.troubleshoot Hosts.manager opaqueId w))).
  { rewrite Hlog. reflexivity. }
  split; [|split].
  - exists evs, k. split; [exact Hlog|]. split; [exact Hc|].
    exact (Hk " Up " EmptyString).
  - apply (Hr " Up " EmptyString " Up " EmptyString); rewrite E; vm_compute; tauto.
  - exists evs'. split; [exact Hlog' | exact Hc'].
Defined.

(** X16. The tools update_workflow and troubleshoot read a member of the
    arguments before anything else: called without arguments, they answer
    the TypeError of that access, flagged as an error, and run no
    command. *)
Theorem tool_call_without_arguments
        (m : N8nWorkflowManager) (name : string) (w : World)
        (Hname : name = "update_workflow" \/ name = "troubleshoot") :
  let msg := "Cannot read properties of undefined (reading 'workflowId')" in
  Sdk.callTool m {| Sdk.tool := name; Sdk.arguments := JUndefined |} w
  = (Normal {| Sdk.text := "Error: " ++ msg; Sdk.isError := Some true |},
     emit (StderrError "Tool execution error:" msg) w).
Proof.
  intros msg. subst msg.
  destruct Hname as [-> | ->]; reflexivity.
Qed.

Lemma tool_call_without_arguments_witness :
  let w := Hosts.boot (Hosts.printing "Up") 1700000000000 in
  Sdk.callTool Hosts.manager
    {| Sdk.tool := "troubleshoot"; Sdk.arguments := JUndefined |} w
  = (Normal {| Sdk.text := "Error: Cannot read properties of undefined (reading 'workflowId')";
               Sdk.isError := Some true |},
     emit (StderrError "Tool execution error:"
             "Cannot read properties of undefined (reading 'workflowId')") w).
Proof.
  intros w.
  apply (tool_call_without_arguments Hosts.manager "troubleshoot" w).
  right. reflexivity.
Defined.

(** X17. The three tools without parameters never look at the arguments of
    the call. *)
Theorem tools_without_parameters_ignore_arguments
        (m : N8nWorkflowManager) (name : string) (args args' : JsVal) (w : World)
        (Hupdate : name <> "update_workflow")
        (Htroubleshoot : name <> "troubleshoot") :
  Sdk.callTool m {| Sdk.tool := name; Sdk.arguments := args |} w
  = Sdk.callTool m {| Sdk.tool := name; Sdk.arguments := args' |} w.
Proof.
  unfold Sdk.callTool. cbn [Sdk.tool Sdk.arguments]. unfold Sdk.route.
  repeat match goal with
    | |- context [String.eqb name ?l] =>
        destruct (String.eqb_spec name l); [subst; try reflexivity|]
    end.
  - exfalso. apply Hupdate. reflexivity.
  - exfalso. apply Htroubleshoot. reflexivity.
  - reflexivity.
Qed.

Lemma tools_without_parameters_ignore_arguments_witness :
  let w := Hosts.boot (Hosts.printing "Up") 1700000000000 in
  Sdk.callTool Hosts.manager
    {| Sdk.tool := "backup_workflows"; Sdk.arguments := JUndefined |} w
  = Sdk.callTool Hosts.manager
      {| Sdk.tool := "backup_workflows"; Sdk.arguments := JStr "anything" |} w.
Proof.
  intros w.
  apply (tools_without_parameters_ignore_arguments Hosts.manager "backup_workflows"
           JUndefined (JStr "anything") w).
  - discriminate.
  - discriminate.
Defined.

(** X18. The tool update_workflow reads the [workflowId] of its arguments and then
    does not use it: two calls whose arguments carry the same
    [updateData] do the same, whatever their [workflowId]. *)
Theorem update_workflow_ignores_the_workflow_id
        (m : N8nWorkflowManager) (args args' : list (string * JsVal)) (w : World)
        (Hdata : Js.lookup "updateData" args = Js.lookup "updateData" args') :
  Sdk.callTool m {| Sdk.tool := "update_workflow"; Sdk.arguments := JObj args |} w
  = Sdk.callTool m {| Sdk.tool := "update_workflow"; Sdk.arguments := JObj args' |} w.
Proof.
  unfold Sdk.callTool. cbn [Sdk.tool Sdk.arguments].
  change (Sdk.route "update_workflow") with (Some Sdk.UpdateWorkflow).
  cbn beta iota. unfold Sdk.invoke, Sdk.member, bind.
  cbn [Js.get]. rewrite Hdata. reflexivity.
Qed.

Lemma update_workflow_ignores_the_workflow_id_witness :
  let w := Hosts.boot (Hosts.printing "ok") 1700000000000 in
  let data := JObj [("name", JStr "Nightly")] in
  Sdk.callTool Hosts.manager
    {| Sdk.tool := "update_workflow";
       Sdk.arguments := JObj [("workflowId", JStr "1"); ("updateData", data)] |} w
  = Sdk.callTool Hosts.manager
      {| Sdk.tool := "update_workflow";
         Sdk.arguments := JObj [("updateData", data); ("workflowId", JStr "2")] |} w.
Proof.
  intros w data.
  apply (update_workflow_ignores_the_workflow_id Hosts.manager
           [("workflowId", JStr "1"); ("updateData", data)]
           [("updateData", data); ("workflowId", JStr "2")] w).
  reflexivity.
Defined.

Lemma lookup_missing key props :
  Js.has_key key props = false -> Js.lookup key props = JUndefined.
Proof.
  induction props as [|[k v] r IH]; simpl; [reflexivity|].
  destruct (String.eqb k key); simpl; [discriminate|exact IH].
Qed.

(** X19. A parameter that the request leaves out is put into the command
    lines as the word [undefined]: the stdio server's update then exports
    [--id=undefined] and copies a file named [undefined]; the update of
    [index.js] echoes the word [undefined] into its temporary file. *)
Theorem missing_parameter_is_spelled_undefined
        (m : N8nWorkflowManager) (props : list (string * JsVal)) (w : World)
        (Hid : Js.has_key "id" props = false)
        (Hfile : Js.has_key "file" props = false)
        (Hdata : Js.has_key "updateData" props = false) :
  (exists evs k,
     log (snd (Stdio.invoke m Stdio.UpdateWorkflow (JObj props) w)) = (log w ++ evs)%list
     /\ commands evs
        = firstn (S k)
            [ Stdio.exportCommand m "undefined"; Stdio.copyCommand m "undefined";
              Stdio.importCommand m; Stdio.activateCommand m "undefined";
              Stdio.restartCommand m ])
  /\
  (exists evs k,
     log (snd (Sdk.invoke m Sdk.UpdateWorkflow (JObj props) w)) = (log w ++ evs)%list
     /\ commands evs
        = firstn (S k)
            [ "echo 'undefined' > " ++ Sdk.tmpFileAt (now w);
              Sdk.copyCommand m (Sdk.tmpFileAt (now w));
              Sdk.importCommand m; Sdk.rmCommand (Sdk.tmpFileAt (now w)) ]).
Proof.
  apply lookup_missing in Hid, Hfile, Hdata.
  split.
  - unfold Stdio.invoke, Stdio.member, bind. cbn [Js.get]. rewrite Hid, Hfile.
    unfold ret at 1 2. cbn beta iota.
    unfold Stdio.updateWorkflow, Stdio.executeCommand, template, try_catch, bind,
      exec, ret, throw.
    cbn [Js.toString]. cbn beta iota.
    repeat next_reply_quietly.
    all: eexists.
    all: first [ exists 0%nat; split; [cbn [snd log emit advance]; unfold push;
                   rewrite <- ?app_assoc; simpl; reflexivity | reflexivity]
               | exists 1%nat; split; [cbn [snd log emit advance]; unfold push;
                   rewrite <- ?app_assoc; simpl; reflexivity | reflexivity]
               | exists 2%nat; split; [cbn [snd log emit advance]; unfold push;
                   rewrite <- ?app_assoc; simpl; reflexivity | reflexivity]
               | exists 3%nat; split; [cbn [snd log emit advance]; unfold push;
                   rewrite <- ?app_assoc; simpl; reflexivity | reflexivity]
               | exists 4%nat; split; [cbn [snd log emit advance]; unfold push;
                   rewrite <- ?app_assoc; simpl; reflexivity | reflexivity] ].
  - unfold Sdk.invoke, Sdk.member, bind. cbn [Js.get]. rewrite Hdata.
    unfold ret at 1 2. cbn beta iota.
    unfold Sdk.updateWorkflow, Sdk.executeCommand, Sdk.answer, try_catch, bind,
      exec, date_now, ret, throw, console_error.
    cbn beta iota.
    repeat (first [next_reply_quietly | next_noise_quietly]).
    all: eexists.
    all: first [ exists 0%nat; split; [cbn [snd log emit advance]; unfold push;
                   rewrite <- ?app_assoc; simpl; reflexivity | reflexivity]
               | exists 1%nat; split; [cbn [snd log emit advance]; unfold push;
                   rewrite <- ?app_assoc; simpl; reflexivity | reflexivity]
               | exists 2%nat; split; [cbn [snd log emit advance]; unfold push;
                   rewrite <- ?app_assoc; simpl; reflexivity | reflexivity]
               | exists 3%nat; split; [cbn [snd log emit advance]; unfold push;
                   rewrite <- ?app_assoc; simpl; reflexivity | reflexivity] ].
Qed.

Lemma missing_parameter_is_spelled_undefined_witness :
  let w := Hosts.boot (Hosts.printing "ok") 1700000000000 in
  let props := [("workflow", JStr "7")] in
  Js.has_key "id" props = false
  /\ exists evs k,
       log (snd (Stdio.invoke Hosts.manager Stdio.UpdateWorkflow (JObj props) w))
       = (log w ++ evs)%list
       /\ commands evs
          = firstn (S k)
              [ Stdio.exportCommand Hosts.manager "undefined";
                Stdio.copyCommand Hosts.manager "undefined";
                Stdio.importCommand Hosts.manager;
                Stdio.activateCommand Hosts.manager "undefined";
                Stdio.restartCommand Hosts.manager ].
Proof.
  intros w props. split; [reflexivity|].
  apply (missing_parameter_is_spelled_undefined Hosts.manager props w
           eq_refl eq_refl eq_refl).
Defined.

(** ** The stdio server: what the answers are made of *)

Ltac events_of Hlog :=
  simpl in Hlog; unfold push in Hlog; rewrite <- ?app_assoc in Hlog;
  first [ apply app_inv_head in Hlog | apply no_new_events in Hlog ];
  simpl in Hlog; subst.

Ltac failure_is_last :=
  first [ exists []%list; split; reflexivity
        | eexists [_]%list; split; reflexivity
        | eexists [_; _]%list; split; reflexivity
        | eexists [_; _; _]%list; split; reflexivity
        | eexists [_; _; _; _]%list; split; reflexivity ].

Ltac answer_of_failure :=
  unfold answers_the_failure, Stdio.listWorkflows, Stdio.updateWorkflow,
    Stdio.restartContainer, Stdio.backupWorkflows, Stdio.troubleshoot,
    Stdio.executeCommand, template, try_catch, bind, exec, sleep, date_now, ret,
    throw;
  intros w evs c msg; cbn beta iota;
  repeat match goal with
    | |- context [Js.toString ?v] => destruct (Js.toString v); cbn beta iota
    end;
  repeat next_reply_quietly;
  intros Hlog Hin; events_of Hlog;
  split_cases_of Hin;
  try discriminate Hin;
  injection Hin as <- <-;
  (split; [reflexivity | failure_is_last]).

(** X20. Every operation of the stdio server's manager answers a failed
    command with its own prefix followed by the message of the failure,
    unchanged, and the failed command is the last thing it did: nothing is
    retried and nothing is undone. *)
Theorem stdio_operations_answer_the_failure :
  (forall m, answers_the_failure "Error listing workflows: " (Stdio.listWorkflows m))
  /\ (forall m id file,
        answers_the_failure "Error updating workflow: " (Stdio.updateWorkflow m id file))
  /\ (forall m,
        answers_the_failure "Error restarting container: " (Stdio.restartContainer m))
  /\ (forall m, answers_the_failure "Error creating backup: " (Stdio.backupWorkflows m))
  /\ (forall m id,
        answers_the_failure "Error during troubleshooting: " (Stdio.troubleshoot m id)).
Proof.
  split; [|split; [|split; [|split]]].
  - intros m. answer_of_failure.
  - intros m id file. answer_of_failure.
  - intros m. answer_of_failure.
  - intros m. answer_of_failure.
  - intros m id. answer_of_failure.
Qed.

(** X21. A diagnosis of the stdio server in which no command has failed is
    three paragraphs separated by an empty line: the trimmed output of the
    status command, the trimmed output of the search, and the output of the
    logs command, as it is, on the line after its heading. *)
Theorem stdio_troubleshoot_joins_three_paragraphs
        (m : N8nWorkflowManager) (id : JsVal) (i : string) (w : World)
        (evs : list Event)
        (Hid : Js.toString id = Some i)
        (Hlog : log (snd (Stdio.troubleshoot m id w)) = (log w ++ evs)%list)
        (Hok : some_failed evs = false) :
  exists status e1 found e2 logs e3,
    evs = [ Exec (Stdio.statusCommand m) (Exited status e1);
            Exec (Stdio.searchCommand m i) (Exited found e2);
            Exec (Stdio.logsCommand m) (Exited logs e3) ]
    /\ fst (Stdio.troubleshoot m id w)
       = Normal ("Container status: " ++ JsString.trim status
                 ++ Json.newline ++ Json.newline
                 ++ "Workflow status: " ++ JsString.trim found
                 ++ Json.newline ++ Json.newline
                 ++ "Recent logs:" ++ Json.newline ++ logs).
Proof.
  revert Hlog.
  unfold Stdio.troubleshoot, Stdio.executeCommand, template, try_catch, bind,
    exec, ret, throw.
  rewrite Hid. cbn beta iota.
  repeat next_reply_quietly.
  all: intros Hlog; events_of Hlog.
  all: try discriminate Hok.
  do 6 eexists. split; [reflexivity|].
  cbn [fst]. reflexivity.
Qed.

Lemma stdio_troubleshoot_joins_three_paragraphs_witness :
  let w := Hosts.boot (Hosts.printing " Up ") 1700000000000 in
  let run := Stdio.troubleshoot Hosts.manager (JStr "42") w in
  some_failed (log (snd run)) = false
  /\ exists status e1 found e2 logs e3,
       log (snd run)
       = [ Exec (Stdio.statusCommand Hosts.manager) (Exited status e1);
           Exec (Stdio.searchCommand Hosts.manager "42") (Exited found e2);
           Exec (Stdio.logsCommand Hosts.manager) (Exited logs e3) ]
       /\ fst run
          = Normal ("Container status: " ++ JsString.trim status
                    ++ Json.newline ++ Json.newline
                    ++ "Workflow status: " ++ JsString.trim found
                    ++ Json.newline ++ Json.newline
                    ++ "Recent logs:" ++ Json.newline ++ logs).
Proof.
  intros w run. split; [reflexivity|].
  apply (stdio_troubleshoot_joins_three_paragraphs Hosts.manager (JStr "42") "42" w
           (log (snd run))).
  - reflexivity.
  - reflexivity.
  - reflexivity.
Defined.

(** X22. A list-workflows request of the stdio server runs the list command
    and prints its standard output, whatever it is, as the result of one
    JSON line; what the command wrote to its standard error is dropped. *)
Theorem stdio_list_request_prints_the_listing
        (m : N8nWorkflowManager) (props : list (string * JsVal)) (w : World)
        (out err : string)
        (Hmethod : Js.lookup "method" props = JStr "list-workflows")
        (Hreply : respond (host w) (log w) (Stdio.listCommand m) = Exited out err) :
  fst (Stdio.onData m (Stdio.Parsed (JObj props)) w) = Normal tt
  /\ log (snd (Stdio.onData m (Stdio.Parsed (JObj props)) w))
     = (log w ++ [ Exec (Stdio.listCommand m) (Exited out err);
                   Stdout ("{" ++ Json.quote "result" ++ ":" ++ Json.quote out ++ "}") ])%list.
Proof.
  unfold Stdio.onData, Stdio.JSON_parse, Stdio.handleRequest, Stdio.destructure,
    try_catch, bind, ret.
  cbn [Js.get]. rewrite Hmethod. cbn beta iota.
  change (Stdio.route (JStr "list-workflows")) with (Some Stdio.ListWorkflows).
  cbn beta iota. unfold Stdio.invoke, Stdio.listWorkflows, Stdio.executeCommand,
    try_catch, bind, exec, ret, console_log.
  cbn beta iota. rewrite Hreply. cbn beta iota.
  split; [reflexivity|].
  cbn [snd log emit advance]. unfold push. rewrite <- app_assoc. reflexivity.
Qed.

Lemma stdio_list_request_prints_the_listing_witness :
  let w := Hosts.boot (chatty_host Hosts.sampleListing "deprecated flag") 1700000000000 in
  let request := [("method", JStr "list-workflows")] in
  respond (host w) (log w) (Stdio.listCommand Hosts.manager)
  = Exited Hosts.sampleListing "deprecated flag"
  /\ log (snd (Stdio.onData Hosts.manager (Stdio.Parsed (JObj request)) w))
     = (log w ++ [ Exec (Stdio.listCommand Hosts.manager)
                     (Exited Hosts.sampleListing "deprecated flag");
                   Stdout ("{" ++ Json.quote "result" ++ ":"
                             ++ Json.quote Hosts.sampleListing ++ "}") ])%list.
Proof.
  intros w request. split; [reflexivity|].
  apply (stdio_list_request_prints_the_listing Hosts.manager request w
           Hosts.sampleListing "deprecated flag").
  - reflexivity.
  - reflexivity.
Defined.

(** X23. Input of the stdio server that is no request object.  Text that
    does not parse is answered on standard error with the message of the
    parser; [null] is answered there with the TypeError of the
    destructuring; any other value that is not an object, a number, a
    string or an array for instance, has no method and is answered
    [Unknown command] on standard output.  No command is run. *)
Theorem stdio_input_that_is_no_request
        (m : N8nWorkflowManager) (w : World) :
  (forall msg,
      Stdio.onData m (Stdio.Malformed msg) w
      = (Normal tt, emit (Stderr (Stdio.errorLine msg)) w))
  /\ Stdio.onData m (Stdio.Parsed JNull) w
     = (Normal tt,
        emit (Stderr (Stdio.errorLine
                        "Cannot destructure property 'method' of 'request' as it is null."))
             w)
  /\ (forall v,
        nullish v = false -> (forall props, v <> JObj props) ->
        Stdio.onData m (Stdio.Parsed v) w
        = (Normal tt, emit (Stdout (Stdio.resultLine "Unknown command")) w)).
Proof.
  split; [|split].
  - intros msg. reflexivity.
  - reflexivity.
  - intros v Hv Hobj.
    destruct v; try discriminate Hv; try reflexivity.
    exfalso. eapply Hobj. reflexivity.
Qed.

(** ** Timers *)

Ltac no_timer :=
  unfold never_waits, Sdk.listWorkflows, Sdk.updateWorkflow, Sdk.backupWorkflows,
    Sdk.troubleshoot, Sdk.executeCommand,
    Stdio.listWorkflows, Stdio.updateWorkflow, Stdio.backupWorkflows,
    Stdio.troubleshoot, Stdio.executeCommand,
    template, try_catch, bind, exec, date_now, ret, throw, console_error;
  intros w; cbn beta iota;
  repeat match goal with
    | |- context [Js.toString ?v] => destruct (Js.toString v); cbn beta iota
    end;
  repeat (first [next_reply_quietly | next_noise_quietly]);
  (eexists;
   split; [ cbn [snd log emit advance]; unfold push; rewrite <- ?app_assoc;
            simpl; first [ reflexivity | symmetry; apply app_nil_r ]
          | reflexivity ]).

(** X24. Restart is the only operation that waits.  In particular the
    update of the stdio server, whose last step restarts the container,
    returns as soon as the restart command has completed. *)
Theorem only_restart_waits :
  (forall m, never_waits (Sdk.listWorkflows m))
  /\ (forall m id data, never_waits (Sdk.updateWorkflow m id data))
  /\ (forall m, never_waits (Sdk.backupWorkflows m))
  /\ (forall m id, never_waits (Sdk.troubleshoot m id))
  /\ (forall m, never_waits (Stdio.listWorkflows m))
  /\ (forall m id file, never_waits (Stdio.updateWorkflow m id file))
  /\ (forall m, never_waits (Stdio.backupWorkflows m))
  /\ (forall m id, never_waits (Stdio.troubleshoot m id)).
Proof.
  repeat match goal with |- _ /\ _ => split end.
  - intros m. no_timer.
  - intros m id data. no_timer.
  - intros m. no_timer.
  - intros m id. no_timer.
  - intros m. no_timer.
  - intros m id file. no_timer.
  - intros m. no_timer.
  - intros m id. no_timer.
Qed.

(** ** The constructor and the answer to an empty listing *)

(** X25. The container name is never empty: it is the value of the
    environment variable when that is set to a text that is not empty, and
    the name [n8n-container] otherwise. *)
Theorem container_name_is_never_empty (env : option string) :
  containerName (newManager env) <> EmptyString
  /\ (forall value, env = Some value -> value <> EmptyString ->
        containerName (newManager env) = value)
  /\ (env = None \/ env = Some EmptyString ->
      containerName (newManager env) = "n8n-container")
  /\ (containerName (newManager env) = "n8n-container"
      <-> env = None \/ env = Some EmptyString \/ env = Some "n8n-container").
Proof.
  destruct env as [[|c r]|]; simpl.
  - split; [discriminate|].
    split; [intros value E Hne; injection E as <-; contradiction|].
    split; [reflexivity|]. split; [tauto | reflexivity].
  - split; [discriminate|].
    split; [intros value E _; injection E as <-; reflexivity|].
    split; [intros [H|H]; discriminate H|]. split.
    + intros ->. tauto.
    + intros [H|[H|H]]; try discriminate H. injection H as -> ->. reflexivity.
  - split; [discriminate|].
    split; [intros value E; discriminate E|].
    split; [reflexivity|]. split; [tauto | reflexivity].
Qed.

(** X26. When the list command prints white space only, the list_workflows
    tool answers an array of one object with an empty [id] and [active]
    false; the [name], being undefined, is left out of the JSON text. *)
Theorem blank_listing_is_answered_without_a_name
        (m : N8nWorkflowManager) (args : JsVal) (w : World) (out err : string)
        (Hblank : all_ws out = true)
        (Hreply : respond (host w) (log w) (Sdk.listCommand m) = Exited out err) :
  fst (Sdk.callTool m {| Sdk.tool := "list_workflows"; Sdk.arguments := args |} w)
  = Normal
      {| Sdk.text :=
           "[" ++ Json.newline
           ++ "  {" ++ Json.newline
           ++ "    " ++ Json.quote "id" ++ ": " ++ Json.quote EmptyString ++ ","
           ++ Json.newline
           ++ "    " ++ Json.quote "active" ++ ": false" ++ Json.newline
           ++ "  }" ++ Json.newline
           ++ "]";
         Sdk.isError := None |}.
Proof.
  unfold Sdk.callTool. cbn [Sdk.tool Sdk.arguments].
  change (Sdk.route "list_workflows") with (Some Sdk.ListWorkflows).
  cbn beta iota. unfold Sdk.invoke, Sdk.listWorkflows, Sdk.executeCommand,
    Sdk.answer, try_catch, bind, exec, ret, console_error.
  cbn beta iota. rewrite Hreply. cbn beta iota.
  destruct (negb (String.eqb err EmptyString)
            && negb (JsString.includes "WARNING" err))%bool.
  all: cbn beta iota; unfold Sdk.parseListing.
  all: rewrite (trim_all_ws out Hblank); reflexivity.
Qed.

Lemma blank_listing_is_answered_without_a_name_witness :
  let w := Hosts.boot (Hosts.printing "   ") 1700000000000 in
  all_ws "   " = true
  /\ fst (Sdk.callTool Hosts.manager
            {| Sdk.tool := "list_workflows"; Sdk.arguments := JUndefined |} w)
     = Normal
         {| Sdk.text :=
              "[" ++ Json.newline
              ++ "  {" ++ Json.newline
              ++ "    " ++ Json.quote "id" ++ ": " ++ Json.quote EmptyString ++ ","
              ++ Json.newline
              ++ "    " ++ Json.quote "active" ++ ": false" ++ Json.newline
              ++ "  }" ++ Json.newline
              ++ "]";
            Sdk.isError := None |}.
Proof.
  intros w. split; [reflexivity|].
  apply (blank_listing_is_answered_without_a_name Hosts.manager JUndefined w
           "   " EmptyString).
  - reflexivity.
  - reflexivity.
Defined.
